(** * NVD enrichment service: a shallow embedding of [pkg/services/nvd.go]

    The development follows the Go file top-down: the error values of the
    package, the string helpers of the Go standard library it calls, the CPE
    validator and normaliser, the retrying fetcher, the CVSS metric extractor,
    the likelihood table, the vendor-comment parser and finally the
    enrichment orchestrator.  Theorems come after all the definitions. *)

From Stdlib Require Import String Ascii List ZArith Bool Lia Floats.
Import ListNotations.

Local Open Scope string_scope.
Local Open Scope list_scope.

(* ===================================================================== *)
(** ** Go error values *)
(* ===================================================================== *)

Module GoErrors.

(** The package-level sentinel errors created with [errors.New].  Go
    compares them by identity, so each one is a constructor of its own. *)
Inductive sentinel : Type :=
| ErrInvalidCPE
| ErrNVDServiceUnavailable
| ErrNVDAPIStatus
| ErrNVDDecode.

(** Operands of a [fmt.Errorf] call other than the [%w] ones. *)
Inductive fmt_arg : Type :=
| ArgInt (n : Z)
| ArgString (s : string).

(** An [error] is a sentinel, an error produced by another package
    (net/http, encoding/json, time: never one of the sentinels above), or
    the result of [fmt.Errorf] with zero, one or two [%w] operands. *)
Inductive error : Type :=
| Sentinel (s : sentinel)
| External (msg : string)
| Errorf (format : string) (args : list fmt_arg)
| ErrorfW (format : string) (args : list fmt_arg) (wrapped : error)
| ErrorfWW (format : string) (args : list fmt_arg) (wrapped1 wrapped2 : error).

Definition sentinel_eqb (a b : sentinel) : bool :=
  match a, b with
  | ErrInvalidCPE, ErrInvalidCPE
  | ErrNVDServiceUnavailable, ErrNVDServiceUnavailable
  | ErrNVDAPIStatus, ErrNVDAPIStatus
  | ErrNVDDecode, ErrNVDDecode => true
  | _, _ => false
  end.

(** [errors.Is err target] for a sentinel target: identity, or identity of
    anything reachable through the [%w] chain. *)
Fixpoint errors_Is (err : error) (target : sentinel) : bool :=
  match err with
  | Sentinel s => sentinel_eqb s target
  | External _ => false
  | Errorf _ _ => false
  | ErrorfW _ _ e => errors_Is e target
  | ErrorfWW _ _ e1 e2 => errors_Is e1 target || errors_Is e2 target
  end.

End GoErrors.
Export GoErrors.

(* ===================================================================== *)
(** ** The functions of Go's [strings] package used by the service *)
(* ===================================================================== *)

Module GoStrings.

(** [strings.HasPrefix s prefix]. *)
Definition strings_HasPrefix (s prefix : string) : bool :=
  String.prefix prefix s.

Fixpoint drop_bytes (n : nat) (s : string) : string :=
  match n, s with
  | O, _ => s
  | S _, EmptyString => EmptyString
  | S k, String _ s' => drop_bytes k s'
  end.

(** [strings.TrimPrefix s prefix]: [s] without the leading [prefix], or
    [s] itself when it does not start with it. *)
Definition strings_TrimPrefix (s prefix : string) : string :=
  if strings_HasPrefix s prefix then drop_bytes (String.length prefix) s else s.

(** [strings.Split s sep] for a separator of one byte, which is the only
    way the service calls it ([":"]).  The empty string splits into one
    empty token, and [n] separators give [n + 1] tokens. *)
Fixpoint strings_Split (s : string) (sep : ascii) : list string :=
  match s with
  | EmptyString => [EmptyString]
  | String c rest =>
      if Ascii.eqb c sep then EmptyString :: strings_Split rest sep
      else match strings_Split rest sep with
           | [] => [String c EmptyString]
           | tok :: toks => String c tok :: toks
           end
  end.

(** [strings.Join elems sep]. *)
Fixpoint strings_Join (elems : list string) (sep : string) : string :=
  match elems with
  | [] => EmptyString
  | [e] => e
  | e :: rest => (e ++ sep ++ strings_Join rest sep)%string
  end.

(** A byte occurs in a string. *)
Fixpoint contains_byte (c : ascii) (s : string) : bool :=
  match s with
  | EmptyString => false
  | String a rest => Ascii.eqb a c || contains_byte c rest
  end.

End GoStrings.
Export GoStrings.

(* ===================================================================== *)
(** ** CPE validator and normaliser *)
(* ===================================================================== *)

Definition colon : ascii := ":"%char.

(** One entry of the [componentsToCheck] table of [isValidCPE]. *)
Record component : Type := { index : nat; name : string }.

Definition componentsToCheck : list component :=
  [ {| index := 2; name := "part" |};
    {| index := 3; name := "vendor" |};
    {| index := 4; name := "product" |};
    {| index := 5; name := "version" |} ].

(** [parts[i]]; every use below is guarded by a length test, so the default
    is never returned. *)
Definition at_index (parts : list string) (i : nat) : string :=
  nth i parts EmptyString.

(** The [for _, comp := range componentsToCheck] loop. *)
Fixpoint checkComponents (parts : list string) (comps : list component) : option error :=
  match comps with
  | [] => None
  | comp :: rest =>
      if String.eqb (at_index parts (index comp)) "*"
      then Some (ErrorfW "%w: %s component must not be '*'"
                         [ArgString (at_index parts (index comp))]
                         (Sentinel ErrInvalidCPE))
      else checkComponents parts rest
  end.

(** [isValidCPE]: [None] is Go's [nil] error. *)
Definition isValidCPE (cpe : string) : option error :=
  let parts := strings_Split cpe colon in
  if negb (Nat.eqb (List.length parts) 13) then
    Some (ErrorfW "%w: must have 13 colon-separated parts, got %d"
                  [ArgInt (Z.of_nat (List.length parts))] (Sentinel ErrInvalidCPE))
  else if negb (String.eqb (at_index parts 0) "cpe") then
    Some (ErrorfW "%w: must start with 'cpe', got '%s'"
                  [ArgString (at_index parts 0)] (Sentinel ErrInvalidCPE))
  else if negb (String.eqb (at_index parts 1) "2.3") then
    Some (ErrorfW "%w: must have '2.3' as the second part (CPE Version), got '%s'"
                  [ArgString (at_index parts 1)] (Sentinel ErrInvalidCPE))
  else checkComponents parts componentsToCheck.

(** [parts[0] = x] on a slice known to be non-empty. *)
Definition set_first (parts : list string) (x : string) : list string :=
  match parts with
  | [] => []
  | _ :: rest => x :: rest
  end.

(** [standardizeCPE]: Go returns the pair (string, error), with the empty
    string on failure. *)
Definition standardizeCPE (cpe : string) : string * option error :=
  if negb (strings_HasPrefix cpe "cpe:/") then
    (EmptyString, Some (Errorf "CPE does not start with 'cpe:/': %s" [ArgString cpe]))
  else
    let cpeWithoutPrefix := strings_TrimPrefix cpe "cpe:/" in
    let parts := strings_Split cpeWithoutPrefix colon in
    if Nat.ltb (List.length parts) 4 then
      (EmptyString,
       Some (Errorf "CPE is too short, needs at least part, vendor, product and version: %s"
                    [ArgString cpe]))
    else
      let parts := set_first parts (strings_TrimPrefix (at_index parts 0) "/") in
      let paddingNeeded := (11 - Z.of_nat (List.length parts))%Z in
      let parts :=
        if (0 <? paddingNeeded)%Z then parts ++ repeat "*" (Z.to_nat paddingNeeded)
        else if (paddingNeeded <? 0)%Z then firstn 11 parts
        else parts in
      (("cpe:2.3:" ++ strings_Join parts ":")%string, None).

(* ===================================================================== *)
(** ** Resilient NVD fetcher *)
(* ===================================================================== *)

(** Go's (value, error) results where exactly one of the two is set. *)
Inductive result (A : Type) : Type :=
| Ok (a : A)
| Fail (e : error).
Arguments Ok {A} a.
Arguments Fail {A} e.

(** The result of a call into another package (net/http, encoding/json,
    time): a value, or an error of that package, kept as its message.  The
    service sees such an error as [External msg]. *)
Inductive outcome (A : Type) : Type :=
| Success (a : A)
| Failure (msg : string).
Arguments Success {A} a.
Arguments Failure {A} msg.

(** [time.Duration]: a signed 64-bit count of nanoseconds. *)
Definition Duration : Type := Z.
Definition time_Second : Duration := 1000000000%Z.

Definition wrap_int64 (z : Z) : Z :=
  ((z + 2 ^ 63) mod 2 ^ 64 - 2 ^ 63)%Z.

(** [float64(d)] for a 64-bit integer: the nearest binary64 value, ties to
    even, over the whole range down to the least 64-bit integer. *)
Definition float64_of_int64 (z : Z) : float :=
  FloatOps.SF2Prim (SpecFloat.binary_normalize FloatOps.prec FloatOps.emax z 0 false).

(** [int64(f)] for a finite float in range: truncation toward zero. *)
Definition int64_of_float64 (f : float) : Z :=
  match FloatOps.Prim2SF f with
  | SpecFloat.S754_finite neg m e =>
      let magnitude :=
        if (0 <=? e)%Z then (Z.pos m * 2 ^ e)%Z else (Z.pos m / 2 ^ (- e))%Z in
      if neg then (- magnitude)%Z else magnitude
  | _ => 0%Z
  end.

Definition maxRetries : Z := 3.
Definition initialRetryDelay : Duration := (5 * time_Second)%Z.

Definition http_StatusOK : Z := 200.
Definition http_StatusServiceUnavailable : Z := 503.

(** The float64 constant [0.2] of [calculateRetryDelay], as the compiler
    rounds it. *)
Definition jitterFraction : float := 0x1.999999999999ap-3%float.

(** [calculateRetryDelay]: exponential backoff, a jitter of a fifth of the
    delay (always added), capped at 15 seconds. *)
Definition calculateRetryDelay (attempt : Z) : Duration :=
  let delay := wrap_int64 (initialRetryDelay * wrap_int64 (Z.shiftl 1 attempt)) in
  let jitter := int64_of_float64 (PrimFloat.mul (float64_of_int64 delay) jitterFraction) in
  let delay := wrap_int64 (delay + jitter) in
  if (15 * time_Second <? delay)%Z then (15 * time_Second)%Z else delay.

Record Request : Type := { Method : string; URL : string }.

Record Response : Type := { StatusCode : Z; Status : string; Body : string }.

(** What the fetcher takes from outside the package: the response type of
    [pkg/dto] with its JSON decoder, URL escaping, request construction, and
    the HTTP round trip.  [client_Do n req] is the outcome of the [n]-th
    round trip of a run (counted from 0): a transport error or a response. *)
Class HttpWorld : Type := {
  NvdAPIResponse : Type;
  url_QueryEscape : string -> string;
  http_NewRequest : string -> string -> outcome Request;
  client_Do : nat -> Request -> outcome Response;
  json_Decode : string -> outcome NvdAPIResponse
}.

(** The observable effects of a run, in the order they happen. *)
Inductive event : Type :=
| EvHTTP (req : Request)
| EvSleep (d : Duration).

Definition trace : Type := list event.

Definition is_http (ev : event) : bool :=
  match ev with EvHTTP _ => true | EvSleep _ => false end.

Definition is_sleep (ev : event) : bool :=
  match ev with EvSleep _ => true | EvHTTP _ => false end.

Definition http_calls (tr : trace) : nat := List.length (filter is_http tr).
Definition sleeps (tr : trace) : list Duration :=
  flat_map (fun ev => match ev with EvSleep d => [d] | EvHTTP _ => [] end) tr.

(** A computation that extends the trace. *)
Definition IO (A : Type) : Type := trace -> A * trace.

Definition ret {A} (a : A) : IO A := fun tr => (a, tr).
Definition bind {A B} (m : IO A) (k : A -> IO B) : IO B :=
  fun tr => let (a, tr') := m tr in k a tr'.

Declare Scope io_scope.
Delimit Scope io_scope with io.
Notation "x <- m ;; k" := (bind m (fun x => k))
  (at level 100, m at next level, right associativity) : io_scope.
Notation "m ;;; k" := (bind m (fun _ => k))
  (at level 100, right associativity) : io_scope.

Section Fetcher.
Context {W : HttpWorld}.
Local Open Scope io_scope.

(** [client.Do(req)]: the next round trip of the run. *)
Definition do_request (req : Request) : IO (outcome Response) :=
  fun tr => (client_Do (http_calls tr) req, tr ++ [EvHTTP req]).

(** [time.Sleep(d)]. *)
Definition time_Sleep (d : Duration) : IO unit :=
  fun tr => (tt, tr ++ [EvSleep d]).

Definition attemptFetch (apiURL : string) : IO (result NvdAPIResponse) :=
  match http_NewRequest "GET" apiURL with
  | Failure err =>
      ret (Fail (ErrorfW "failed to create NVD API request: %w" [] (External err)))
  | Success req =>
      r <- do_request req ;;
      match r with
      | Failure err => ret (Fail (ErrorfW "failed NVD API request: %w" [] (External err)))
      | Success resp =>
          if (StatusCode resp =? http_StatusServiceUnavailable)%Z then
            ret (Fail (Sentinel ErrNVDServiceUnavailable))
          else if negb (StatusCode resp =? http_StatusOK)%Z then
            ret (Fail (ErrorfW "%w: %d %s"
                               [ArgInt (StatusCode resp); ArgString (Status resp)]
                               (Sentinel ErrNVDAPIStatus)))
          else
            match json_Decode (Body resp) with
            | Failure err =>
                ret (Fail (ErrorfWW "%w: %w" [] (Sentinel ErrNVDDecode) (External err)))
            | Success nvdResponse => ret (Ok nvdResponse)
            end
      end
  end.

Definition shouldRetry (err : error) : bool :=
  errors_Is err ErrNVDServiceUnavailable.

(** The [for attempt := 0; attempt <= maxRetries; attempt++] loop of
    [fetchNvdDataByCPE] and the statements after it.  [iterations] is the
    number of iterations the loop condition still allows, [err] the value
    of the variable [err] ([None] is [nil]). *)
Fixpoint retryLoop (cpe apiURL : string) (iterations : nat) (attempt : Z)
         (err : option error) : IO (result NvdAPIResponse) :=
  match iterations with
  | O =>
      ret (Fail match err with
                | Some e => ErrorfW "failed NVD API request after %d retries: %w"
                                    [ArgInt maxRetries] e
                | None => Errorf "failed NVD API request after %d retries: %w"
                                 [ArgInt maxRetries]
                end)
  | S iterations' =>
      r <- attemptFetch apiURL ;;
      match r with
      | Ok nvdResponse => ret (Ok nvdResponse)
      | Fail e =>
          if negb (shouldRetry e) then
            ret (Fail (ErrorfW "non-retriable error for CPE %s: %w" [ArgString cpe] e))
          else
            let retryDelay := calculateRetryDelay attempt in
            time_Sleep retryDelay ;;;
            retryLoop cpe apiURL iterations' (attempt + 1)%Z (Some e)
      end
  end.

(** The request URL: [url.Values] with the single key [cpeName], encoded. *)
Definition buildURL (cpe baseNvdAPIURL : string) : string :=
  (baseNvdAPIURL ++ "?" ++ "cpeName=" ++ url_QueryEscape cpe)%string.

Definition fetchNvdDataByCPE (cpe baseNvdAPIURL : string) : IO (result NvdAPIResponse) :=
  let apiURL := buildURL cpe baseNvdAPIURL in
  retryLoop cpe apiURL (Z.to_nat (maxRetries + 1)) 0%Z None.

End Fetcher.

(* ===================================================================== *)
(** ** The canonical enumerations (package [enums]) *)
(* ===================================================================== *)

(** Modelled from the spec: the canonical enumerations live in the shared
    [common] module, which is not among the sources; the variants are the
    ones the data model lists and the service names. *)
Module enums.

Inductive SeverityType : Type :=
| SeverityTypeUnknown | SeverityTypeNone | SeverityTypeLow
| SeverityTypeMedium | SeverityTypeHigh | SeverityTypeCritical.

Inductive AccessType : Type :=
| AccessTypeUnknown | AccessTypeNetwork | AccessTypeAdjacentNetwork
| AccessTypeLocal | AccesTypePhysical.

Inductive ComplexityType : Type :=
| ComplexityTypeUnknown | ComplexityTypeLow | ComplexityTypeMedium | ComplexityTypeHigh.

Inductive PrivilegesRequiredType : Type :=
| PrivilegesRequiredUnknown | PrivilegesRequiredNone
| PrivilegesRequiredLow | PrivilegesRequiredHigh.

Inductive ImpactType : Type :=
| ImpactTypeUnknown | ImpactTypeNone | ImpactTypeLow | ImpactTypeHigh.

Inductive ExploitabilityType : Type :=
| ExploitabilityTypeUnknown | ExploitabilityTypeUnproven
| ExploitabilityTypeProofOfConcept | ExploitabilityTypeFunctional
| ExploitabilityTypeHigh | ExploitabilityTypeUndefined.

Inductive LikelyhoodType : Type :=
| LikelyhoodTypeUnknown | LikelyhoodTypeLow | LikelyhoodTypeMedium
| LikelyhoodTypeHigh | LikelyhoodTypeVeryHigh.

End enums.

(* ===================================================================== *)
(** ** The NVD response records (package [dto]) *)
(* ===================================================================== *)

(** Modelled from the spec: [pkg/dto] is not among the sources.  Its
    vocabularies are string types with named constants; here each is an
    enumeration of the named constants the service switches on, plus one
    variant carrying any other string.  The records hold the fields the
    service and its tests use. *)
Module dto.

Inductive AttackVectorType : Type :=
| AttackVectorTypeNetwork | AttackVectorTypeAdjacentNetwork
| AttackVectorTypeLocal | AttackVectorTypePhysical
| AttackVectorTypeOther (raw : string).

Inductive AccessVectorTypeV2 : Type :=
| AccessVectorTypeV2Network | AccessVectorTypeV2AdjacentNetwork
| AccessVectorTypeV2Local
| AccessVectorTypeV2Other (raw : string).

Inductive AttackComplexityType : Type :=
| AttackComplexityTypeLow | AttackComplexityTypeHigh
| AttackComplexityTypeOther (raw : string).

Inductive AccessComplexityTypeV2 : Type :=
| AccessComplexityTypeV2High | AccessComplexityTypeV2Medium | AccessComplexityTypeV2Low
| AccessComplexityTypeV2Other (raw : string).

Inductive PrivilegesRequiredType : Type :=
| PrivilegesRequiredTypeHigh | PrivilegesRequiredTypeLow | PrivilegesRequiredTypeNone
| PrivilegesRequiredTypeOther (raw : string).

Inductive CiaType : Type :=
| CiaTypeHigh | CiaTypeLow | CiaTypeNone
| CiaTypeOther (raw : string).

Inductive CiaTypeV2 : Type :=
| CiaTypeV2Complete | CiaTypeV2Partial | CiaTypeV2None
| CiaTypeV2Other (raw : string).

Inductive SeverityType : Type :=
| SeverityTypeCritical | SeverityTypeHigh | SeverityTypeMedium
| SeverityTypeLow | SeverityTypeNone
| SeverityTypeOther (raw : string).

Inductive ExploitCodeMaturityType : Type :=
| ExploitCodeMaturityTypeHigh | ExploitCodeMaturityTypeFunctional
| ExploitCodeMaturityTypeProofOfConcept | ExploitCodeMaturityTypeUnproven
| ExploitCodeMaturityTypeNotDefined
| ExploitCodeMaturityTypeOther (raw : string).

Inductive ExploitabilityTypeV2 : Type :=
| ExploitabilityTypeV2Unproven | ExploitabilityTypeV2ProofOfConcept
| ExploitabilityTypeV2Functional | ExploitabilityTypeV2High
| ExploitabilityTypeV2NotDefined
| ExploitabilityTypeV2Other (raw : string).

Module CvssDataV31.
Record t : Type := {
  BaseScore : float;
  BaseSeverity : SeverityType;
  AttackVector : AttackVectorType;
  AttackComplexity : AttackComplexityType;
  PrivilegesRequired : PrivilegesRequiredType;
  IntegrityImpact : CiaType;
  AvailabilityImpact : CiaType;
  ExploitCodeMaturity : option ExploitCodeMaturityType
}.
End CvssDataV31.

Module CvssMetricV31.
Record t : Type := {
  CvssData : CvssDataV31.t;
  ExploitabilityScore : float;
  ImpactScore : float
}.
End CvssMetricV31.

Module CvssDataV30.
Record t : Type := {
  BaseScore : float;
  BaseSeverity : SeverityType;
  AttackVector : AttackVectorType;
  AttackComplexity : AttackComplexityType;
  PrivilegesRequired : PrivilegesRequiredType;
  IntegrityImpact : CiaType;
  AvailabilityImpact : CiaType;
  ExploitCodeMaturity : option ExploitCodeMaturityType
}.
End CvssDataV30.

Module CvssMetricV30.
Record t : Type := {
  CvssData : CvssDataV30.t;
  ExploitabilityScore : float;
  ImpactScore : float
}.
End CvssMetricV30.

Module CvssDataV2.
Record t : Type := {
  BaseScore : float;
  AccessVector : AccessVectorTypeV2;
  AccessComplexity : AccessComplexityTypeV2;
  Authentication : string;
  IntegrityImpact : CiaTypeV2;
  AvailabilityImpact : CiaTypeV2;
  Exploitability : option ExploitabilityTypeV2
}.
End CvssDataV2.

Module CvssMetricV2.
Record t : Type := {
  CvssData : CvssDataV2.t;
  ExploitabilityScore : float;
  ImpactScore : float;
  BaseSeverity : string
}.
End CvssMetricV2.

Module Metrics.
Record t : Type := {
  CvssMetricV31 : list CvssMetricV31.t;
  CvssMetricV30 : list CvssMetricV30.t;
  CvssMetricV2 : list CvssMetricV2.t
}.
End Metrics.

Module Description.
Record t : Type := { Lang : string; Value : string }.
End Description.

Module Reference.
Record t : Type := { URL : string }.
End Reference.

Module VendorComment.
Record t : Type := {
  Organization : string;
  Comment : string;
  LastModified : string
}.
End VendorComment.

Module CveDetail.
Record t : Type := {
  ID : string;
  SourceIdentifier : string;
  Descriptions : list Description.t;
  References : list Reference.t;
  Metrics : option Metrics.t;
  VendorComments : list VendorComment.t;
  Published : string;
  LastModified : string
}.
End CveDetail.

Module Vulnerability.
Record t : Type := { Cve : CveDetail.t }.
End Vulnerability.

End dto.

(* ===================================================================== *)
(** ** External collaborators *)
(* ===================================================================== *)

(** Go's [time] package: the type [time.Time] and [time.Parse layout value]. *)
Class Clock : Type := {
  Time : Type;
  time_Parse : string -> string -> outcome Time
}.

(** The shared scoring functions: [tools.MapCVSS] bands a CVSS 2.0 base
    score into a severity, [enums.CalculateRiskScore] is the risk formula. *)
Class Scoring : Type := {
  RiskScoreType : Type;
  MapCVSS : float -> enums.SeverityType;
  CalculateRiskScore :
    enums.LikelyhoodType -> enums.ImpactType -> enums.ImpactType -> RiskScoreType
}.

(** A Go slice whose nil-ness is observable: [None] is the nil slice,
    [Some []] an allocated slice of length 0. *)
Definition slice (A : Type) : Type := option (list A).

Definition elems {A} (s : slice A) : list A :=
  match s with
  | None => []
  | Some l => l
  end.

(** [append(s, x)]: never nil. *)
Definition slice_append {A} (s : slice A) (x : A) : slice A := Some (elems s ++ [x]).

(** [make([]T, 0, n)]. *)
Definition make_slice {A} (capacity : nat) : slice A := Some [].

(* ===================================================================== *)
(** ** The canonical records (package [tools]) *)
(* ===================================================================== *)

(** Modelled from the spec: the canonical vulnerability record lives in the
    shared [common] module, which is not among the sources; the fields are
    the ones the data model lists and the service assigns.  The field
    [Type] is spelled [Type_]. *)
Module tools.

Module Exploit.
Record t : Type := {
  Score : float;
  Exploitability : enums.ExploitabilityType
}.
End Exploit.

Module VendorComment.
Section WithClock.
Context {clock : Clock}.
Record t : Type := {
  Organization : string;
  Comment : string;
  LastModified : Time
}.
End WithClock.
Arguments Build_t {clock} _ _ _.
End VendorComment.

Module Vulnerability.
Section WithCollaborators.
Context {clock : Clock} {scoring : Scoring}.

Record t : Type := {
  ID : string;
  Type_ : string;
  Description : string;
  References : slice string;
  BaseCVSSScore : float;
  BaseSeverity : enums.SeverityType;
  ImpactScore : float;
  Access : enums.AccessType;
  Complexity : enums.ComplexityType;
  PrivilegesRequired : enums.PrivilegesRequiredType;
  IntegrityImpact : enums.ImpactType;
  AvailabilityImpact : enums.ImpactType;
  Exploit : Exploit.t;
  Published : Time;
  LastUpdated : Time;
  Likelihood : enums.LikelyhoodType;
  RiskScore : RiskScoreType;
  VendorComments : slice VendorComment.t
}.

(** Field assignments [vuln.F = x], one per field the service writes. *)
Definition set_ID (x : string) (v : t) : t :=
  {| ID := x; Type_ := Type_ v; Description := Description v; References := References v;
     BaseCVSSScore := BaseCVSSScore v; BaseSeverity := BaseSeverity v;
     ImpactScore := ImpactScore v; Access := Access v; Complexity := Complexity v;
     PrivilegesRequired := PrivilegesRequired v; IntegrityImpact := IntegrityImpact v;
     AvailabilityImpact := AvailabilityImpact v; Exploit := Exploit v;
     Published := Published v; LastUpdated := LastUpdated v; Likelihood := Likelihood v;
     RiskScore := RiskScore v; VendorComments := VendorComments v |}.

Definition set_Type_ (x : string) (v : t) : t :=
  {| ID := ID v; Type_ := x; Description := Description v; References := References v;
     BaseCVSSScore := BaseCVSSScore v; BaseSeverity := BaseSeverity v;
     ImpactScore := ImpactScore v; Access := Access v; Complexity := Complexity v;
     PrivilegesRequired := PrivilegesRequired v; IntegrityImpact := IntegrityImpact v;
     AvailabilityImpact := AvailabilityImpact v; Exploit := Exploit v;
     Published := Published v; LastUpdated := LastUpdated v; Likelihood := Likelihood v;
     RiskScore := RiskScore v; VendorComments := VendorComments v |}.

Definition set_Description (x : string) (v : t) : t :=
  {| ID := ID v; Type_ := Type_ v; Description := x; References := References v;
     BaseCVSSScore := BaseCVSSScore v; BaseSeverity := BaseSeverity v;
     ImpactScore := ImpactScore v; Access := Access v; Complexity := Complexity v;
     PrivilegesRequired := PrivilegesRequired v; IntegrityImpact := IntegrityImpact v;
     AvailabilityImpact := AvailabilityImpact v; Exploit := Exploit v;
     Published := Published v; LastUpdated := LastUpdated v; Likelihood := Likelihood v;
     RiskScore := RiskScore v; VendorComments := VendorComments v |}.

Definition set_References (x : slice string) (v : t) : t :=
  {| ID := ID v; Type_ := Type_ v; Description := Description v; References := x;
     BaseCVSSScore := BaseCVSSScore v; BaseSeverity := BaseSeverity v;
     ImpactScore := ImpactScore v; Access := Access v; Complexity := Complexity v;
     PrivilegesRequired := PrivilegesRequired v; IntegrityImpact := IntegrityImpact v;
     AvailabilityImpact := AvailabilityImpact v; Exploit := Exploit v;
     Published := Published v; LastUpdated := LastUpdated v; Likelihood := Likelihood v;
     RiskScore := RiskScore v; VendorComments := VendorComments v |}.

Definition set_BaseCVSSScore (x : float) (v : t) : t :=
  {| ID := ID v; Type_ := Type_ v; Description := Description v;
     References := References v; BaseCVSSScore := x; BaseSeverity := BaseSeverity v;
     ImpactScore := ImpactScore v; Access := Access v; Complexity := Complexity v;
     PrivilegesRequired := PrivilegesRequired v; IntegrityImpact := IntegrityImpact v;
     AvailabilityImpact := AvailabilityImpact v; Exploit := Exploit v;
     Published := Published v; LastUpdated := LastUpdated v; Likelihood := Likelihood v;
     RiskScore := RiskScore v; VendorComments := VendorComments v |}.

Definition set_BaseSeverity (x : enums.SeverityType) (v : t) : t :=
  {| ID := ID v; Type_ := Type_ v; Description := Description v;
     References := References v; BaseCVSSScore := BaseCVSSScore v; BaseSeverity := x;
     ImpactScore := ImpactScore v; Access := Access v; Complexity := Complexity v;
     PrivilegesRequired := PrivilegesRequired v; IntegrityImpact := IntegrityImpact v;
     AvailabilityImpact := AvailabilityImpact v; Exploit := Exploit v;
     Published := Published v; LastUpdated := LastUpdated v; Likelihood := Likelihood v;
     RiskScore := RiskScore v; VendorComments := VendorComments v |}.

Definition set_ImpactScore (x : float) (v : t) : t :=
  {| ID := ID v; Type_ := Type_ v; Description := Description v;
     References := References v; BaseCVSSScore := BaseCVSSScore v;
     BaseSeverity := BaseSeverity v; ImpactScore := x; Access := Access v;
     Complexity := Complexity v; PrivilegesRequired := PrivilegesRequired v;
     IntegrityImpact := IntegrityImpact v; AvailabilityImpact := AvailabilityImpact v;
     Exploit := Exploit v; Published := Published v; LastUpdated := LastUpdated v;
     Likelihood := Likelihood v; RiskScore := RiskScore v;
     VendorComments := VendorComments v |}.

Definition set_Access (x : enums.AccessType) (v : t) : t :=
  {| ID := ID v; Type_ := Type_ v; Description := Description v;
     References := References v; BaseCVSSScore := BaseCVSSScore v;
     BaseSeverity := BaseSeverity v; ImpactScore := ImpactScore v; Access := x;
     Complexity := Complexity v; PrivilegesRequired := PrivilegesRequired v;
     IntegrityImpact := IntegrityImpact v; AvailabilityImpact := AvailabilityImpact v;
     Exploit := Exploit v; Published := Published v; LastUpdated := LastUpdated v;
     Likelihood := Likelihood v; RiskScore := RiskScore v;
     VendorComments := VendorComments v |}.

Definition set_Complexity (x : enums.ComplexityType) (v : t) : t :=
  {| ID := ID v; Type_ := Type_ v; Description := Description v;
     References := References v; BaseCVSSScore := BaseCVSSScore v;
     BaseSeverity := BaseSeverity v; ImpactScore := ImpactScore v; Access := Access v;
     Complexity := x; PrivilegesRequired := PrivilegesRequired v;
     IntegrityImpact := IntegrityImpact v; AvailabilityImpact := AvailabilityImpact v;
     Exploit := Exploit v; Published := Published v; LastUpdated := LastUpdated v;
     Likelihood := Likelihood v; RiskScore := RiskScore v;
     VendorComments := VendorComments v |}.

Definition set_PrivilegesRequired (x : enums.PrivilegesRequiredType) (v : t) : t :=
  {| ID := ID v; Type_ := Type_ v; Description := Description v;
     References := References v; BaseCVSSScore := BaseCVSSScore v;
     BaseSeverity := BaseSeverity v; ImpactScore := ImpactScore v; Access := Access v;
     Complexity := Complexity v; PrivilegesRequired := x;
     IntegrityImpact := IntegrityImpact v; AvailabilityImpact := AvailabilityImpact v;
     Exploit := Exploit v; Published := Published v; LastUpdated := LastUpdated v;
     Likelihood := Likelihood v; RiskScore := RiskScore v;
     VendorComments := VendorComments v |}.

Definition set_IntegrityImpact (x : enums.ImpactType) (v : t) : t :=
  {| ID := ID v; Type_ := Type_ v; Description := Description v;
     References := References v; BaseCVSSScore := BaseCVSSScore v;
     BaseSeverity := BaseSeverity v; ImpactScore := ImpactScore v; Access := Access v;
     Complexity := Complexity v; PrivilegesRequired := PrivilegesRequired v;
     IntegrityImpact := x; AvailabilityImpact := AvailabilityImpact v;
     Exploit := Exploit v; Published := Published v; LastUpdated := LastUpdated v;
     Likelihood := Likelihood v; RiskScore := RiskScore v;
     VendorComments := VendorComments v |}.

Definition set_AvailabilityImpact (x : enums.ImpactType) (v : t) : t :=
  {| ID := ID v; Type_ := Type_ v; Description := Description v;
     References := References v; BaseCVSSScore := BaseCVSSScore v;
     BaseSeverity := BaseSeverity v; ImpactScore := ImpactScore v; Access := Access v;
     Complexity := Complexity v; PrivilegesRequired := PrivilegesRequired v;
     IntegrityImpact := IntegrityImpact v; AvailabilityImpact := x; Exploit := Exploit v;
     Published := Published v; LastUpdated := LastUpdated v; Likelihood := Likelihood v;
     RiskScore := RiskScore v; VendorComments := VendorComments v |}.

Definition set_Exploit (x : Exploit.t) (v : t) : t :=
  {| ID := ID v; Type_ := Type_ v; Description := Description v;
     References := References v; BaseCVSSScore := BaseCVSSScore v;
     BaseSeverity := BaseSeverity v; ImpactScore := ImpactScore v; Access := Access v;
     Complexity := Complexity v; PrivilegesRequired := PrivilegesRequired v;
     IntegrityImpact := IntegrityImpact v; AvailabilityImpact := AvailabilityImpact v;
     Exploit := x; Published := Published v; LastUpdated := LastUpdated v;
     Likelihood := Likelihood v; RiskScore := RiskScore v;
     VendorComments := VendorComments v |}.

Definition set_Published (x : Time) (v : t) : t :=
  {| ID := ID v; Type_ := Type_ v; Description := Description v;
     References := References v; BaseCVSSScore := BaseCVSSScore v;
     BaseSeverity := BaseSeverity v; ImpactScore := ImpactScore v; Access := Access v;
     Complexity := Complexity v; PrivilegesRequired := PrivilegesRequired v;
     IntegrityImpact := IntegrityImpact v; AvailabilityImpact := AvailabilityImpact v;
     Exploit := Exploit v; Published := x; LastUpdated := LastUpdated v;
     Likelihood := Likelihood v; RiskScore := RiskScore v;
     VendorComments := VendorComments v |}.

Definition set_LastUpdated (x : Time) (v : t) : t :=
  {| ID := ID v; Type_ := Type_ v; Description := Description v;
     References := References v; BaseCVSSScore := BaseCVSSScore v;
     BaseSeverity := BaseSeverity v; ImpactScore := ImpactScore v; Access := Access v;
     Complexity := Complexity v; PrivilegesRequired := PrivilegesRequired v;
     IntegrityImpact := IntegrityImpact v; AvailabilityImpact := AvailabilityImpact v;
     Exploit := Exploit v; Published := Published v; LastUpdated := x;
     Likelihood := Likelihood v; RiskScore := RiskScore v;
     VendorComments := VendorComments v |}.

Definition set_Likelihood (x : enums.LikelyhoodType) (v : t) : t :=
  {| ID := ID v; Type_ := Type_ v; Description := Description v;
     References := References v; BaseCVSSScore := BaseCVSSScore v;
     BaseSeverity := BaseSeverity v; ImpactScore := ImpactScore v; Access := Access v;
     Complexity := Complexity v; PrivilegesRequired := PrivilegesRequired v;
     IntegrityImpact := IntegrityImpact v; AvailabilityImpact := AvailabilityImpact v;
     Exploit := Exploit v; Published := Published v; LastUpdated := LastUpdated v;
     Likelihood := x; RiskScore := RiskScore v; VendorComments := VendorComments v |}.

Definition set_RiskScore (x : RiskScoreType) (v : t) : t :=
  {| ID := ID v; Type_ := Type_ v; Description := Description v;
     References := References v; BaseCVSSScore := BaseCVSSScore v;
     BaseSeverity := BaseSeverity v; ImpactScore := ImpactScore v; Access := Access v;
     Complexity := Complexity v; PrivilegesRequired := PrivilegesRequired v;
     IntegrityImpact := IntegrityImpact v; AvailabilityImpact := AvailabilityImpact v;
     Exploit := Exploit v; Published := Published v; LastUpdated := LastUpdated v;
     Likelihood := Likelihood v; RiskScore := x; VendorComments := VendorComments v |}.

Definition set_VendorComments (x : slice VendorComment.t) (v : t) : t :=
  {| ID := ID v; Type_ := Type_ v; Description := Description v;
     References := References v; BaseCVSSScore := BaseCVSSScore v;
     BaseSeverity := BaseSeverity v; ImpactScore := ImpactScore v; Access := Access v;
     Complexity := Complexity v; PrivilegesRequired := PrivilegesRequired v;
     IntegrityImpact := IntegrityImpact v; AvailabilityImpact := AvailabilityImpact v;
     Exploit := Exploit v; Published := Published v; LastUpdated := LastUpdated v;
     Likelihood := Likelihood v; RiskScore := RiskScore v; VendorComments := x |}.

End WithCollaborators.
End Vulnerability.

End tools.

(* ===================================================================== *)
(** ** CVSS metric extractor *)
(* ===================================================================== *)

Definition mapAccessTypeV31AndV30 (attackVector : dto.AttackVectorType) : enums.AccessType :=
  match attackVector with
  | dto.AttackVectorTypeNetwork => enums.AccessTypeNetwork
  | dto.AttackVectorTypeAdjacentNetwork => enums.AccessTypeAdjacentNetwork
  | dto.AttackVectorTypeLocal => enums.AccessTypeLocal
  | dto.AttackVectorTypePhysical => enums.AccesTypePhysical
  | dto.AttackVectorTypeOther _ => enums.AccessTypeUnknown
  end.

Definition mapAccessTypeV2 (accessVector : dto.AccessVectorTypeV2) : enums.AccessType :=
  match accessVector with
  | dto.AccessVectorTypeV2Network => enums.AccessTypeNetwork
  | dto.AccessVectorTypeV2AdjacentNetwork => enums.AccessTypeAdjacentNetwork
  | dto.AccessVectorTypeV2Local => enums.AccessTypeLocal
  | dto.AccessVectorTypeV2Other _ => enums.AccessTypeUnknown
  end.

Definition mapComplexityTypeV31AndV30 (complexity : dto.AttackComplexityType)
  : enums.ComplexityType :=
  match complexity with
  | dto.AttackComplexityTypeLow => enums.ComplexityTypeLow
  | dto.AttackComplexityTypeHigh => enums.ComplexityTypeHigh
  | dto.AttackComplexityTypeOther _ => enums.ComplexityTypeUnknown
  end.

Definition mapComplexityTypeV2 (complexity : dto.AccessComplexityTypeV2)
  : enums.ComplexityType :=
  match complexity with
  | dto.AccessComplexityTypeV2High => enums.ComplexityTypeHigh
  | dto.AccessComplexityTypeV2Medium => enums.ComplexityTypeMedium
  | dto.AccessComplexityTypeV2Low => enums.ComplexityTypeLow
  | dto.AccessComplexityTypeV2Other _ => enums.ComplexityTypeUnknown
  end.

Definition mapPrivilegesRequiredTypeV31AndV30 (privReq : dto.PrivilegesRequiredType)
  : enums.PrivilegesRequiredType :=
  match privReq with
  | dto.PrivilegesRequiredTypeHigh => enums.PrivilegesRequiredHigh
  | dto.PrivilegesRequiredTypeLow => enums.PrivilegesRequiredLow
  | dto.PrivilegesRequiredTypeNone => enums.PrivilegesRequiredNone
  | dto.PrivilegesRequiredTypeOther _ => enums.PrivilegesRequiredUnknown
  end.

Definition mapImpactTypeV31AndV30 (cia : dto.CiaType) : enums.ImpactType :=
  match cia with
  | dto.CiaTypeHigh => enums.ImpactTypeHigh
  | dto.CiaTypeLow => enums.ImpactTypeLow
  | dto.CiaTypeNone => enums.ImpactTypeNone
  | dto.CiaTypeOther _ => enums.ImpactTypeUnknown
  end.

Definition mapImpactTypeV2 (cia : dto.CiaTypeV2) : enums.ImpactType :=
  match cia with
  | dto.CiaTypeV2Complete => enums.ImpactTypeHigh
  | dto.CiaTypeV2Partial => enums.ImpactTypeLow
  | dto.CiaTypeV2None => enums.ImpactTypeNone
  | dto.CiaTypeV2Other _ => enums.ImpactTypeUnknown
  end.

Definition mapSeverityType (severity : dto.SeverityType) : enums.SeverityType :=
  match severity with
  | dto.SeverityTypeCritical => enums.SeverityTypeCritical
  | dto.SeverityTypeHigh => enums.SeverityTypeHigh
  | dto.SeverityTypeMedium => enums.SeverityTypeMedium
  | dto.SeverityTypeLow => enums.SeverityTypeLow
  | dto.SeverityTypeNone => enums.SeverityTypeNone
  | dto.SeverityTypeOther _ => enums.SeverityTypeUnknown
  end.

(** The argument is a pointer: [None] is [nil]. *)
Definition mapExploitabilityV31AndV30 (exploitability : option dto.ExploitCodeMaturityType)
  : enums.ExploitabilityType :=
  match exploitability with
  | None => enums.ExploitabilityTypeUnknown
  | Some dto.ExploitCodeMaturityTypeHigh => enums.ExploitabilityTypeHigh
  | Some dto.ExploitCodeMaturityTypeFunctional => enums.ExploitabilityTypeFunctional
  | Some dto.ExploitCodeMaturityTypeProofOfConcept => enums.ExploitabilityTypeProofOfConcept
  | Some dto.ExploitCodeMaturityTypeUnproven => enums.ExploitabilityTypeUnproven
  | Some dto.ExploitCodeMaturityTypeNotDefined => enums.ExploitabilityTypeUndefined
  | Some (dto.ExploitCodeMaturityTypeOther _) => enums.ExploitabilityTypeUnknown
  end.

Definition mapExploitabilityV2 (exploitability : option dto.ExploitabilityTypeV2)
  : enums.ExploitabilityType :=
  match exploitability with
  | None => enums.ExploitabilityTypeUnknown
  | Some dto.ExploitabilityTypeV2Unproven => enums.ExploitabilityTypeUnproven
  | Some dto.ExploitabilityTypeV2ProofOfConcept => enums.ExploitabilityTypeProofOfConcept
  | Some dto.ExploitabilityTypeV2Functional => enums.ExploitabilityTypeFunctional
  | Some dto.ExploitabilityTypeV2High => enums.ExploitabilityTypeHigh
  | Some dto.ExploitabilityTypeV2NotDefined => enums.ExploitabilityTypeUndefined
  | Some (dto.ExploitabilityTypeV2Other _) => enums.ExploitabilityTypeUnknown
  end.

(** The nine named results of [extractMetrics]. *)
Record extracted : Type := {
  baseCVSSScore : float;
  baseSeverity : enums.SeverityType;
  impactScore : float;
  access : enums.AccessType;
  complexity : enums.ComplexityType;
  privilegesRequired : enums.PrivilegesRequiredType;
  integrityImpact : enums.ImpactType;
  availabilityImpact : enums.ImpactType;
  exploitability : tools.Exploit.t
}.

(** The values the named results are initialised with. *)
Definition extractDefaults : extracted :=
  {| baseCVSSScore := 0%float;
     baseSeverity := enums.SeverityTypeUnknown;
     impactScore := 0%float;
     access := enums.AccessTypeUnknown;
     complexity := enums.ComplexityTypeUnknown;
     privilegesRequired := enums.PrivilegesRequiredUnknown;
     integrityImpact := enums.ImpactTypeUnknown;
     availabilityImpact := enums.ImpactTypeUnknown;
     exploitability :=
       {| tools.Exploit.Score := 0%float;
          tools.Exploit.Exploitability := enums.ExploitabilityTypeUnknown |} |}.

Section Extractor.
Context {scoring : Scoring}.

(** [extractMetrics]: the argument is a pointer ([None] is [nil]); the
    [if / else if] chain looks at element 0 of the first non-empty list.
    The CVSS 2.0 branch assigns every result except [privilegesRequired]. *)
Definition extractMetrics (metrics : option dto.Metrics.t) : extracted :=
  match metrics with
  | None => extractDefaults
  | Some metrics =>
      match dto.Metrics.CvssMetricV31 metrics with
      | m31 :: _ =>
          let cvssDataV31 := dto.CvssMetricV31.CvssData m31 in
          {| baseCVSSScore := dto.CvssDataV31.BaseScore cvssDataV31;
             impactScore := dto.CvssMetricV31.ImpactScore m31;
             baseSeverity := mapSeverityType (dto.CvssDataV31.BaseSeverity cvssDataV31);
             access := mapAccessTypeV31AndV30 (dto.CvssDataV31.AttackVector cvssDataV31);
             complexity :=
               mapComplexityTypeV31AndV30 (dto.CvssDataV31.AttackComplexity cvssDataV31);
             privilegesRequired :=
               mapPrivilegesRequiredTypeV31AndV30
                 (dto.CvssDataV31.PrivilegesRequired cvssDataV31);
             integrityImpact :=
               mapImpactTypeV31AndV30 (dto.CvssDataV31.IntegrityImpact cvssDataV31);
             availabilityImpact :=
               mapImpactTypeV31AndV30 (dto.CvssDataV31.AvailabilityImpact cvssDataV31);
             exploitability :=
               {| tools.Exploit.Score := dto.CvssMetricV31.ExploitabilityScore m31;
                  tools.Exploit.Exploitability :=
                    mapExploitabilityV31AndV30
                      (dto.CvssDataV31.ExploitCodeMaturity cvssDataV31) |} |}
      | [] =>
          match dto.Metrics.CvssMetricV30 metrics with
          | m30 :: _ =>
              let cvssDataV30 := dto.CvssMetricV30.CvssData m30 in
              {| baseCVSSScore := dto.CvssDataV30.BaseScore cvssDataV30;
                 impactScore := dto.CvssMetricV30.ImpactScore m30;
                 baseSeverity := mapSeverityType (dto.CvssDataV30.BaseSeverity cvssDataV30);
                 access := mapAccessTypeV31AndV30 (dto.CvssDataV30.AttackVector cvssDataV30);
                 complexity :=
                   mapComplexityTypeV31AndV30 (dto.CvssDataV30.AttackComplexity cvssDataV30);
                 privilegesRequired :=
                   mapPrivilegesRequiredTypeV31AndV30
                     (dto.CvssDataV30.PrivilegesRequired cvssDataV30);
                 integrityImpact :=
                   mapImpactTypeV31AndV30 (dto.CvssDataV30.IntegrityImpact cvssDataV30);
                 availabilityImpact :=
                   mapImpactTypeV31AndV30 (dto.CvssDataV30.AvailabilityImpact cvssDataV30);
                 exploitability :=
                   {| tools.Exploit.Score := dto.CvssMetricV30.ExploitabilityScore m30;
                      tools.Exploit.Exploitability :=
                        mapExploitabilityV31AndV30
                          (dto.CvssDataV30.ExploitCodeMaturity cvssDataV30) |} |}
          | [] =>
              match dto.Metrics.CvssMetricV2 metrics with
              | m2 :: _ =>
                  let cvssDataV2 := dto.CvssMetricV2.CvssData m2 in
                  let score := dto.CvssDataV2.BaseScore cvssDataV2 in
                  {| baseCVSSScore := score;
                     impactScore := dto.CvssMetricV2.ImpactScore m2;
                     baseSeverity := MapCVSS score;
                     access := mapAccessTypeV2 (dto.CvssDataV2.AccessVector cvssDataV2);
                     complexity :=
                       mapComplexityTypeV2 (dto.CvssDataV2.AccessComplexity cvssDataV2);
                     privilegesRequired := privilegesRequired extractDefaults;
                     integrityImpact :=
                       mapImpactTypeV2 (dto.CvssDataV2.IntegrityImpact cvssDataV2);
                     availabilityImpact :=
                       mapImpactTypeV2 (dto.CvssDataV2.AvailabilityImpact cvssDataV2);
                     exploitability :=
                       {| tools.Exploit.Score := dto.CvssMetricV2.ExploitabilityScore m2;
                          tools.Exploit.Exploitability :=
                            mapExploitabilityV2
                              (dto.CvssDataV2.Exploitability cvssDataV2) |} |}
              | [] => extractDefaults
              end
          end
      end
  end.

End Extractor.

(* ===================================================================== *)
(** ** Descriptions, references, dates, likelihood, vendor comments *)
(* ===================================================================== *)

(** The first description tagged ["en"], or the empty string. *)
Fixpoint getEnglishDescription (descriptions : list dto.Description.t) : string :=
  match descriptions with
  | [] => EmptyString
  | desc :: rest =>
      if String.eqb (dto.Description.Lang desc) "en" then dto.Description.Value desc
      else getEnglishDescription rest
  end.

(** [var refs []string] followed by one [append] per reference: the result
    is the nil slice when there is no reference. *)
Definition getReferences (vulnReferences : list dto.Reference.t) : slice string :=
  fold_left (fun refs ref => slice_append refs (dto.Reference.URL ref)) vulnReferences None.

Section Service.
Context {clock : Clock} {scoring : Scoring}.

Definition parseNvdDateTime (dateStr : string) : result Time :=
  let customLayout := "2006-01-02T15:04:05.000" in
  match time_Parse customLayout dateStr with
  | Failure err =>
      Fail (ErrorfW "failed to parse date using custom layout: %w" [] (External err))
  | Success parsedTime => Ok parsedTime
  end.

Definition parseNvdVendorCommentDateTime (dateStr : string) : result Time :=
  let customLayout := "2006-01-02T15:04:05" in
  match time_Parse customLayout dateStr with
  | Failure err =>
      Fail (ErrorfW "failed to parse date using custom layout: %w" [] (External err))
  | Success parsedTime => Ok parsedTime
  end.

Definition calculateLikelihoodSimple (vuln : tools.Vulnerability.t) : enums.LikelyhoodType :=
  match tools.Vulnerability.Access vuln with
  | enums.AccessTypeNetwork =>
      match tools.Vulnerability.Complexity vuln with
      | enums.ComplexityTypeLow => enums.LikelyhoodTypeVeryHigh
      | _ => enums.LikelyhoodTypeHigh
      end
  | enums.AccessTypeAdjacentNetwork => enums.LikelyhoodTypeMedium
  | enums.AccessTypeUnknown => enums.LikelyhoodTypeUnknown
  | _ => enums.LikelyhoodTypeLow
  end.

(** One iteration of the loop of [parseVendorComments]: the comment is
    appended when its timestamp parses, and skipped ([continue]) otherwise. *)
Definition parseVendorComment_step (resultComments : slice tools.VendorComment.t)
           (comment : dto.VendorComment.t) : slice tools.VendorComment.t :=
  match parseNvdVendorCommentDateTime (dto.VendorComment.LastModified comment) with
  | Fail _ => resultComments
  | Ok lastModifiedTime =>
      slice_append resultComments
        {| tools.VendorComment.Organization := dto.VendorComment.Organization comment;
           tools.VendorComment.Comment := dto.VendorComment.Comment comment;
           tools.VendorComment.LastModified := lastModifiedTime |}
  end.

Definition parseVendorComments (nvdComments : list dto.VendorComment.t)
  : slice tools.VendorComment.t :=
  fold_left parseVendorComment_step nvdComments (make_slice (List.length nvdComments)).

(* ===================================================================== *)
(** ** Enrichment orchestrator *)
(* ===================================================================== *)

(** [enrichVulnerabilityWithNvdData].  The target is a pointer: [None] is
    [nil].  The first component of the result is the record the pointer
    refers to when the call returns, the second the returned error. *)
Definition enrichVulnerabilityWithNvdData
           (vuln : option tools.Vulnerability.t) (nvdVuln : dto.Vulnerability.t)
  : option tools.Vulnerability.t * option error :=
  match vuln with
  | None => (None, Some (Errorf "expected a non-nil vulnerability" []))
  | Some vuln =>
      let cve := dto.Vulnerability.Cve nvdVuln in
      let vuln := tools.Vulnerability.set_ID (dto.CveDetail.ID cve) vuln in
      let vuln := tools.Vulnerability.set_Type_ (dto.CveDetail.SourceIdentifier cve) vuln in
      let vuln :=
        tools.Vulnerability.set_Description
          (getEnglishDescription (dto.CveDetail.Descriptions cve)) vuln in
      let vuln :=
        tools.Vulnerability.set_References
          (getReferences (dto.CveDetail.References cve)) vuln in
      let m := extractMetrics (dto.CveDetail.Metrics cve) in
      let vuln := tools.Vulnerability.set_BaseCVSSScore (baseCVSSScore m) vuln in
      let vuln := tools.Vulnerability.set_BaseSeverity (baseSeverity m) vuln in
      let vuln := tools.Vulnerability.set_ImpactScore (impactScore m) vuln in
      let vuln := tools.Vulnerability.set_Access (access m) vuln in
      let vuln := tools.Vulnerability.set_Complexity (complexity m) vuln in
      let vuln := tools.Vulnerability.set_PrivilegesRequired (privilegesRequired m) vuln in
      let vuln := tools.Vulnerability.set_IntegrityImpact (integrityImpact m) vuln in
      let vuln := tools.Vulnerability.set_AvailabilityImpact (availabilityImpact m) vuln in
      let vuln := tools.Vulnerability.set_Exploit (exploitability m) vuln in
      match parseNvdDateTime (dto.CveDetail.Published cve) with
      | Fail err => (Some vuln, Some (ErrorfW "failed to parse publishedTime: %w" [] err))
      | Ok publishedTime =>
          let vuln := tools.Vulnerability.set_Published publishedTime vuln in
          match parseNvdDateTime (dto.CveDetail.LastModified cve) with
          | Fail err => (Some vuln, Some (ErrorfW "failed to parse updatedTime: %w" [] err))
          | Ok updatedTime =>
              let vuln := tools.Vulnerability.set_LastUpdated updatedTime vuln in
              let vuln :=
                tools.Vulnerability.set_Likelihood (calculateLikelihoodSimple vuln) vuln in
              let vuln :=
                tools.Vulnerability.set_RiskScore
                  (CalculateRiskScore (tools.Vulnerability.Likelihood vuln)
                                      (tools.Vulnerability.IntegrityImpact vuln)
                                      (tools.Vulnerability.AvailabilityImpact vuln)) vuln in
              let vuln :=
                tools.Vulnerability.set_VendorComments
                  (parseVendorComments (dto.CveDetail.VendorComments cve)) vuln in
              (Some vuln, None)
          end
      end
  end.

End Service.

(* ===================================================================== *)
(** ** Reference collaborators for the examples *)
(* ===================================================================== *)

(** [time.Parse] for the two layouts of the service, after the parser of
    Go's [time] package: the layout is a sequence of elements, each with the
    literal text that precedes it; the value is consumed element by
    element, and the first element that does not fit ends the parse with the
    text of Go's [ParseError].  The year takes four digits; month, day,
    minute and second take two; the hour takes one or two.  The layout
    ending in [.000] demands a period or comma and three more bytes; the
    layout without a fraction tolerates one after the seconds.  The day is
    checked against the month once the value is consumed. *)
Module RefClock.

Record datetime : Type := {
  year : Z; month : Z; day : Z;
  hour : Z; minute : Z; second : Z;
  nanosecond : Z
}.

Definition digit (c : ascii) : option Z :=
  let n := Z.of_nat (nat_of_ascii c) in
  if ((48 <=? n) && (n <=? 57))%Z then Some (n - 48)%Z else None.

Definition is_digit (c : ascii) : bool :=
  match digit c with Some _ => true | None => false end.

(** [getnum(s, fixed)]: one or two digits, two when [fixed]; [None] is
    [errBad]. *)
Definition getnum (s : string) (fixed : bool) : option (Z * string) :=
  match s with
  | EmptyString => None
  | String a rest =>
      match digit a with
      | None => None
      | Some x =>
          match rest with
          | String b rest' =>
              match digit b with
              | Some y => Some (10 * x + y, rest')%Z
              | None => if fixed then None else Some (x, rest)
              end
          | EmptyString => if fixed then None else Some (x, rest)
          end
      end
  end.

(** The digits at the head of a string, as a number, and what follows. *)
Fixpoint leadingInt (s : string) (acc : Z) : Z * string :=
  match s with
  | EmptyString => (acc, s)
  | String c rest =>
      match digit c with
      | Some d => leadingInt rest (10 * acc + d)%Z
      | None => (acc, s)
      end
  end.

(** [atoi]: an optional sign and digits up to the end.  The parser calls it
    on at most nine bytes, so the overflow test of the original is left
    out. *)
Definition atoi (s : string) : option Z :=
  let (neg, body) :=
    match s with
    | String c rest =>
        if Ascii.eqb c "-"%char then (true, rest)
        else if Ascii.eqb c "+"%char then (false, rest)
        else (false, s)
    | EmptyString => (false, s)
    end in
  match leadingInt body 0%Z with
  | (x, EmptyString) => Some (if neg then (- x)%Z else x)
  | (_, String _ _) => None
  end.

Definition isLeap (y : Z) : bool :=
  ((y mod 4 =? 0) && (negb (y mod 100 =? 0) || (y mod 400 =? 0)))%Z.

Definition daysIn (m y : Z) : Z :=
  if ((m =? 2) && isLeap y)%Z then 29%Z
  else if (m =? 2)%Z then 28%Z
  else if ((m =? 4) || (m =? 6) || (m =? 9) || (m =? 11))%Z then 30%Z
  else 31%Z.

Definition commaOrPeriod (c : ascii) : bool :=
  Ascii.eqb c "."%char || Ascii.eqb c ","%char.

Definition lowerhex (n : nat) : ascii :=
  nth n (list_ascii_of_string "0123456789abcdef") "0"%char.

(** The bytes of [quote]: control bytes and bytes above 127 as [\xNN], the
    double quote and the backslash escaped, the rest as they are. *)
Fixpoint quote_bytes (s : string) : string :=
  match s with
  | EmptyString => EmptyString
  | String c rest =>
      let n := nat_of_ascii c in
      if Nat.leb 128 n || Nat.ltb n 32 then
        String "\"%char (String "x"%char
          (String (lowerhex (n / 16)) (String (lowerhex (n mod 16)) (quote_bytes rest))))
      else if Nat.eqb n 34 || Nat.eqb n 92 then
        String "\"%char (String c (quote_bytes rest))
      else String c (quote_bytes rest)
  end.

Definition quote (s : string) : string :=
  String (ascii_of_nat 34) (quote_bytes s ++ String (ascii_of_nat 34) EmptyString).

(** [ParseError.Error()]. *)
Definition parseError (layout value layoutElem valueElem message : string) : string :=
  match message with
  | EmptyString =>
      "parsing time " ++ quote value ++ " as " ++ quote layout
      ++ ": cannot parse " ++ quote valueElem ++ " as " ++ quote layoutElem
  | String _ _ => "parsing time " ++ quote value ++ message
  end.

(** The elements of the two layouts. *)
Inductive std : Type :=
| stdLongYear
| stdZeroMonth
| stdZeroDay
| stdHour
| stdZeroMinute
| stdZeroSecond
| stdFracSecond0 (digits : nat).

(** The text of an element in the layout. *)
Definition stdstr (e : std) : string :=
  match e with
  | stdLongYear => "2006"
  | stdZeroMonth => "01"
  | stdZeroDay => "02"
  | stdHour => "15"
  | stdZeroMinute => "04"
  | stdZeroSecond => "05"
  | stdFracSecond0 n => String "."%char (string_of_list_ascii (repeat "0"%char n))
  end.

(** What [nextStdChunk] finds in a layout, element by element with the
    literal prefix of each. *)
Definition dateTimeChunks : list (string * std) :=
  [ (EmptyString, stdLongYear); ("-", stdZeroMonth); ("-", stdZeroDay);
    ("T", stdHour); (":", stdZeroMinute); (":", stdZeroSecond) ].

Definition chunks (layout : string) : option (list (string * std)) :=
  if String.eqb layout "2006-01-02T15:04:05" then Some dateTimeChunks
  else if String.eqb layout "2006-01-02T15:04:05.000" then
    Some (dateTimeChunks ++ [(EmptyString, stdFracSecond0 3)])
  else None.

(** [skip(value, prefix)] for a prefix without spaces: the rest of the
    value, and whether the prefix was there. *)
Fixpoint skip (value prefix : string) : string * bool :=
  match prefix with
  | EmptyString => (value, true)
  | String p prefix' =>
      match value with
      | EmptyString => (value, false)
      | String v value' => if Ascii.eqb v p then skip value' prefix' else (value, false)
      end
  end.

(** The fields collected so far. *)
Record fields : Type := {
  f_year : Z; f_month : Z; f_day : Z;
  f_hour : Z; f_min : Z; f_sec : Z; f_nsec : Z
}.

Definition noFields : fields :=
  {| f_year := 0; f_month := (-1); f_day := (-1);
     f_hour := 0; f_min := 0; f_sec := 0; f_nsec := 0 |}.

(** The outcome of one element: the rest of the value and the fields, a
    field out of range, or [errBad]. *)
Inductive element : Type :=
| Parsed (value : string) (fs : fields)
| OutOfRange (what : string)
| Bad.

(** [parseNanoseconds(value, nbytes)], for a value of at least [nbytes]
    bytes: the separator, then [nbytes - 1] bytes read by [atoi] (nine at
    most), scaled to nanoseconds. *)
Definition parseNanoseconds (value : string) (nbytes : nat) : option (option Z) :=
  match value with
  | EmptyString => None
  | String c _ =>
      if negb (commaOrPeriod c) then None
      else
        let nbytes := if Nat.ltb 10 nbytes then 10 else nbytes in
        match atoi (String.substring 1 (nbytes - 1) value) with
        | None => None
        | Some ns =>
            if (ns <? 0)%Z then Some None
            else Some (Some (ns * 10 ^ Z.of_nat (10 - nbytes))%Z)
        end
  end.

(** The number of digits at the head of a string. *)
Fixpoint digitsAhead (s : string) : nat :=
  match s with
  | EmptyString => 0
  | String c rest => if is_digit c then S (digitsAhead rest) else 0
  end.

(** The fraction after the seconds: a separator followed by a digit. *)
Definition fractionAhead (value : string) : bool :=
  match value with
  | String c (String d _) => commaOrPeriod c && is_digit d
  | _ => false
  end.

Definition set_nsec (ns : Z) (fs : fields) : fields :=
  {| f_year := f_year fs; f_month := f_month fs; f_day := f_day fs;
     f_hour := f_hour fs; f_min := f_min fs; f_sec := f_sec fs; f_nsec := ns |}.

(** One element of the layout against the value.  [fracNext] tells whether
    the next element of the layout is a fraction. *)
Definition parseElement (e : std) (fracNext : bool) (value : string) (fs : fields) : element :=
  match e with
  | stdLongYear =>
      match value with
      | String c _ =>
          if Nat.ltb (String.length value) 4 || negb (is_digit c) then Bad
          else match atoi (String.substring 0 4 value) with
               | None => Bad
               | Some y =>
                   Parsed (drop_bytes 4 value)
                     {| f_year := y; f_month := f_month fs; f_day := f_day fs;
                        f_hour := f_hour fs; f_min := f_min fs; f_sec := f_sec fs;
                        f_nsec := f_nsec fs |}
               end
      | EmptyString => Bad
      end
  | stdZeroMonth =>
      match getnum value true with
      | None => Bad
      | Some (m, rest) =>
          if ((m <=? 0) || (12 <? m))%Z then OutOfRange "month"
          else Parsed rest
                 {| f_year := f_year fs; f_month := m; f_day := f_day fs;
                    f_hour := f_hour fs; f_min := f_min fs; f_sec := f_sec fs;
                    f_nsec := f_nsec fs |}
      end
  | stdZeroDay =>
      match getnum value true with
      | None => Bad
      | Some (d, rest) =>
          Parsed rest
            {| f_year := f_year fs; f_month := f_month fs; f_day := d;
               f_hour := f_hour fs; f_min := f_min fs; f_sec := f_sec fs;
               f_nsec := f_nsec fs |}
      end
  | stdHour =>
      match getnum value false with
      | None => Bad
      | Some (h, rest) =>
          if ((h <? 0) || (24 <=? h))%Z then OutOfRange "hour"
          else Parsed rest
                 {| f_year := f_year fs; f_month := f_month fs; f_day := f_day fs;
                    f_hour := h; f_min := f_min fs; f_sec := f_sec fs;
                    f_nsec := f_nsec fs |}
      end
  | stdZeroMinute =>
      match getnum value true with
      | None => Bad
      | Some (m, rest) =>
          if ((m <? 0) || (60 <=? m))%Z then OutOfRange "minute"
          else Parsed rest
                 {| f_year := f_year fs; f_month := f_month fs; f_day := f_day fs;
                    f_hour := f_hour fs; f_min := m; f_sec := f_sec fs;
                    f_nsec := f_nsec fs |}
      end
  | stdZeroSecond =>
      match getnum value true with
      | None => Bad
      | Some (sec, rest) =>
          if ((sec <? 0) || (60 <=? sec))%Z then OutOfRange "second"
          else
            let fs := {| f_year := f_year fs; f_month := f_month fs; f_day := f_day fs;
                         f_hour := f_hour fs; f_min := f_min fs; f_sec := sec;
                         f_nsec := f_nsec fs |} in
            if fractionAhead rest && negb fracNext then
              let n := S (digitsAhead (drop_bytes 1 rest)) in
              match parseNanoseconds rest n with
              | None => Bad
              | Some None => OutOfRange "fractional second"
              | Some (Some ns) => Parsed (drop_bytes n rest) (set_nsec ns fs)
              end
            else Parsed rest fs
      end
  | stdFracSecond0 digits =>
      let ndigit := S digits in
      if Nat.ltb (String.length value) ndigit then Bad
      else match parseNanoseconds value ndigit with
           | None => Bad
           | Some None => OutOfRange "fractional second"
           | Some (Some ns) => Parsed (drop_bytes ndigit value) (set_nsec ns fs)
           end
  end.

Definition nextIsFraction (rest : list (string * std)) : bool :=
  match rest with
  | (_, stdFracSecond0 _) :: _ => true
  | _ => false
  end.

(** The loop of the parser over the elements of the layout, and what
    follows it: no text may be left, and the day must exist in the month. *)
Fixpoint parseChunks (layout avalue : string) (elements : list (string * std))
         (value : string) (fs : fields) : outcome datetime :=
  match elements with
  | [] =>
      match value with
      | String _ _ =>
          Failure (parseError layout avalue EmptyString value
                              (": extra text: " ++ quote value))
      | EmptyString =>
          if ((f_day fs <? 1) || (daysIn (f_month fs) (f_year fs) <? f_day fs))%Z then
            Failure (parseError layout avalue EmptyString value ": day out of range")
          else
            Success {| year := f_year fs; month := f_month fs; day := f_day fs;
                       hour := f_hour fs; minute := f_min fs; second := f_sec fs;
                       nanosecond := f_nsec fs |}
      end
  | (prefix, e) :: rest =>
      match skip value prefix with
      | (value', false) => Failure (parseError layout avalue prefix value' EmptyString)
      | (value', true) =>
          match parseElement e (nextIsFraction rest) value' fs with
          | Parsed value'' fs' => parseChunks layout avalue rest value'' fs'
          | OutOfRange what =>
              Failure (parseError layout avalue (stdstr e) value'
                                  (": " ++ what ++ " out of range"))
          | Bad => Failure (parseError layout avalue (stdstr e) value' EmptyString)
          end
      end
  end.

(** [time.Parse(layout, value)].  The service passes two layouts only; any
    other layout is refused here. *)
Definition parse (layout value : string) : outcome datetime :=
  match chunks layout with
  | Some elements => parseChunks layout value elements value noFields
  | None => Failure ("parsing time: layout not used by the service: " ++ layout)
  end.

(** The zero [time.Time]: January 1, year 1, 00:00:00 UTC. *)
Definition zero : datetime :=
  {| year := 1; month := 1; day := 1; hour := 0; minute := 0; second := 0;
     nanosecond := 0 |}.

End RefClock.

#[local] Instance refClock : Clock :=
  {| Time := RefClock.datetime; time_Parse := RefClock.parse |}.

(** A scoring collaborator for the examples: the usual CVSS bands, and the
    risk score left symbolic as the triple it is computed from. *)
Module RefScoring.

Definition bands (score : float) : enums.SeverityType :=
  if PrimFloat.leb score 0%float then enums.SeverityTypeNone
  else if PrimFloat.ltb score 4%float then enums.SeverityTypeLow
  else if PrimFloat.ltb score 7%float then enums.SeverityTypeMedium
  else if PrimFloat.ltb score 9%float then enums.SeverityTypeHigh
  else enums.SeverityTypeCritical.

Inductive risk : Type :=
| Unscored
| Risk (likelihood : enums.LikelyhoodType) (integrity availability : enums.ImpactType).

End RefScoring.

#[local] Instance refScoring : Scoring :=
  {| RiskScoreType := RefScoring.risk;
     MapCVSS := RefScoring.bands;
     CalculateRiskScore := RefScoring.Risk |}.

(** Test servers in the manner of the package's tests: one that answers 503
    to every request, and one that answers 503 to the first [maxRetries]
    requests and 200 afterwards. *)
Module RefHttp.

(** The part of [dto.NvdAPIResponse] the tests look at. *)
Record nvdResponse : Type := { TotalResults : Z }.

(** The double quote, which a string literal here cannot hold. *)
Definition dq : string := String (ascii_of_nat 34) EmptyString.

(** The JSON document of a successful answer: an object whose member
    [totalResults] is 1. *)
Definition successBody : string :=
  ("{" ++ dq ++ "totalResults" ++ dq ++ ": 1}")%string.

Definition unavailable : Response :=
  {| StatusCode := 503; Status := "503 Service Unavailable";
     Body := "<html>Service Unavailable</html>" |}.

Definition success : Response :=
  {| StatusCode := 200; Status := "200 OK"; Body := successBody |}.


Definition newRequest (method url : string) : outcome Request :=
  Success {| Method := method; URL := url |}.

(** [json.NewDecoder(body).Decode(&nvdResponse)] on the bodies the servers
    below send with a 200: [successBody] and the empty object decode, and a
    body that opens with [<] is refused with the decoder's message for that
    byte.  No server here sends any other body; such a body is refused as
    well. *)
Definition decode (body : string) : outcome nvdResponse :=
  if String.eqb body successBody then Success {| TotalResults := 1 |}
  else if String.eqb body "{}" then Success {| TotalResults := 0 |}
  else if strings_HasPrefix body "<" then
    Failure "invalid character '<' looking for beginning of value"
  else Failure "document not served by the reference servers".

(** [url.QueryEscape]: letters, digits and [-_.~] are kept, a space becomes
    [+], any other byte becomes [%XX]. *)
Definition unreserved (c : ascii) : bool :=
  let n := nat_of_ascii c in
  (Nat.leb 48 n && Nat.leb n 57) || (Nat.leb 65 n && Nat.leb n 90)
  || (Nat.leb 97 n && Nat.leb n 122)
  || Ascii.eqb c "-"%char || Ascii.eqb c "_"%char || Ascii.eqb c "."%char
  || Ascii.eqb c "~"%char.

Definition upperhex (n : nat) : ascii :=
  nth n (list_ascii_of_string "0123456789ABCDEF") "0"%char.

Fixpoint queryEscape (s : string) : string :=
  match s with
  | EmptyString => EmptyString
  | String c rest =>
      if unreserved c then String c (queryEscape rest)
      else if Ascii.eqb c " "%char then String "+"%char (queryEscape rest)
      else String "%"%char
             (String (upperhex (nat_of_ascii c / 16))
                (String (upperhex (nat_of_ascii c mod 16)) (queryEscape rest)))
  end.

(** The server of [Test_fetchNvdDataByCPE_ServiceUnavailableMaxRetriesFail]. *)
Definition alwaysUnavailable : HttpWorld :=
  {| NvdAPIResponse := nvdResponse;
     url_QueryEscape := queryEscape;
     http_NewRequest := newRequest;
     client_Do := fun _ _ => Success unavailable;
     json_Decode := decode |}.

(** The server of [Test_fetchNvdDataByCPE_ServiceUnavailableMaxRetriesSuccess]. *)
Definition recovering : HttpWorld :=
  {| NvdAPIResponse := nvdResponse;
     url_QueryEscape := queryEscape;
     http_NewRequest := newRequest;
     client_Do := fun n _ => if Nat.ltb n (Z.to_nat maxRetries) then Success unavailable
                             else Success success;
     json_Decode := decode |}.


(** A base URL that [http.NewRequest] cannot parse: a control character. *)
Definition malformedURL : string := String (ascii_of_nat 127) "nvd".

(** A client whose requests are built by a parser that refuses control
    characters in the URL, against the server that answers 503. *)
Definition strictClient : HttpWorld :=
  {| NvdAPIResponse := nvdResponse;
     url_QueryEscape := queryEscape;
     http_NewRequest := fun method url =>
       if contains_byte (ascii_of_nat 127) url
       then Failure "net/url: invalid control character in URL"
       else newRequest method url;
     client_Do := fun _ _ => Success unavailable;
     json_Decode := decode |}.

Definition testCPE : string := "cpe:2.3:o:microsoft:windows_10:1607:*:*:*:*:*:*:*".
Definition testURL : string := "http://127.0.0.1:8080".

(** The request the fetcher builds for [testCPE] against [testURL]. *)
Definition testRequest : Request :=
  {| Method := "GET"; URL := @buildURL alwaysUnavailable testCPE testURL |}.



End RefHttp.

(** The fixtures of [Test_EnrichVulnerabilityWithNvdData]. *)
Module Fixtures.

(** A fresh target in the manner of [&tools.Vulnerability{}]: empty strings,
    nil slices, zero scores, every enumerated field Unknown. *)
Definition emptyVulnerability : tools.Vulnerability.t :=
  {| tools.Vulnerability.ID := EmptyString;
     tools.Vulnerability.Type_ := EmptyString;
     tools.Vulnerability.Description := EmptyString;
     tools.Vulnerability.References := None;
     tools.Vulnerability.BaseCVSSScore := 0%float;
     tools.Vulnerability.BaseSeverity := enums.SeverityTypeUnknown;
     tools.Vulnerability.ImpactScore := 0%float;
     tools.Vulnerability.Access := enums.AccessTypeUnknown;
     tools.Vulnerability.Complexity := enums.ComplexityTypeUnknown;
     tools.Vulnerability.PrivilegesRequired := enums.PrivilegesRequiredUnknown;
     tools.Vulnerability.IntegrityImpact := enums.ImpactTypeUnknown;
     tools.Vulnerability.AvailabilityImpact := enums.ImpactTypeUnknown;
     tools.Vulnerability.Exploit :=
       {| tools.Exploit.Score := 0%float;
          tools.Exploit.Exploitability := enums.ExploitabilityTypeUnknown |};
     tools.Vulnerability.Published := RefClock.zero;
     tools.Vulnerability.LastUpdated := RefClock.zero;
     tools.Vulnerability.Likelihood := enums.LikelyhoodTypeUnknown;
     tools.Vulnerability.RiskScore := RefScoring.Unscored;
     tools.Vulnerability.VendorComments := None |}.

Definition metricV31 : dto.CvssMetricV31.t :=
  {| dto.CvssMetricV31.CvssData :=
       {| dto.CvssDataV31.BaseScore := 7.5%float;
          dto.CvssDataV31.BaseSeverity := dto.SeverityTypeHigh;
          dto.CvssDataV31.AttackVector := dto.AttackVectorTypeNetwork;
          dto.CvssDataV31.AttackComplexity := dto.AttackComplexityTypeLow;
          dto.CvssDataV31.PrivilegesRequired := dto.PrivilegesRequiredTypeNone;
          dto.CvssDataV31.IntegrityImpact := dto.CiaTypeHigh;
          dto.CvssDataV31.AvailabilityImpact := dto.CiaTypeNone;
          dto.CvssDataV31.ExploitCodeMaturity := Some dto.ExploitCodeMaturityTypeFunctional |};
     dto.CvssMetricV31.ExploitabilityScore := 0x1.f333333333333p+1%float;
     dto.CvssMetricV31.ImpactScore := 0x1.799999999999ap+2%float |}.

Definition metricV2 : dto.CvssMetricV2.t :=
  {| dto.CvssMetricV2.CvssData :=
       {| dto.CvssDataV2.BaseScore := 5%float;
          dto.CvssDataV2.AccessVector := dto.AccessVectorTypeV2Network;
          dto.CvssDataV2.AccessComplexity := dto.AccessComplexityTypeV2Low;
          dto.CvssDataV2.Authentication := "NONE";
          dto.CvssDataV2.IntegrityImpact := dto.CiaTypeV2None;
          dto.CvssDataV2.AvailabilityImpact := dto.CiaTypeV2None;
          dto.CvssDataV2.Exploitability := None |};
     dto.CvssMetricV2.ExploitabilityScore := 10%float;
     dto.CvssMetricV2.ImpactScore := 0x1.7333333333333p+1%float;
     dto.CvssMetricV2.BaseSeverity := "MEDIUM" |}.

Definition mockCve (metrics : option dto.Metrics.t) (published : string)
  : dto.Vulnerability.t :=
  {| dto.Vulnerability.Cve :=
       {| dto.CveDetail.ID := "CVE-TEST-V31";
          dto.CveDetail.SourceIdentifier := "TestSource";
          dto.CveDetail.Descriptions :=
            [ {| dto.Description.Lang := "en";
                 dto.Description.Value := "Test Description v3.1" |} ];
          dto.CveDetail.References := [ {| dto.Reference.URL := "http://example.com/ref1" |} ];
          dto.CveDetail.Metrics := metrics;
          dto.CveDetail.VendorComments := [];
          dto.CveDetail.Published := published;
          dto.CveDetail.LastModified := "2024-11-21T02:09:48.080" |} |}.

Definition metricsV31 : dto.Metrics.t :=
  {| dto.Metrics.CvssMetricV31 := [metricV31];
     dto.Metrics.CvssMetricV30 := [];
     dto.Metrics.CvssMetricV2 := [] |}.

Definition metricsV2Only : dto.Metrics.t :=
  {| dto.Metrics.CvssMetricV31 := [];
     dto.Metrics.CvssMetricV30 := [];
     dto.Metrics.CvssMetricV2 := [metricV2] |}.

Definition metricsV31AndV2 : dto.Metrics.t :=
  {| dto.Metrics.CvssMetricV31 := [metricV31];
     dto.Metrics.CvssMetricV30 := [];
     dto.Metrics.CvssMetricV2 := [metricV2] |}.

(** [createMockNvdVulnerabilityWithV31]. *)
Definition mockNvdVulnerabilityWithV31 : dto.Vulnerability.t :=
  mockCve (Some metricsV31) "2024-11-21T02:09:48.080".

(** The same record with a publication date the NVD layout rejects (no
    fractional seconds). *)
Definition mockNvdVulnerabilityBadDate : dto.Vulnerability.t :=
  mockCve (Some metricsV31) "2024-11-21T02:09:48".

(** The entry of [createMockNvdVulnerabilityWithV30Only]. *)
Definition metricV30 : dto.CvssMetricV30.t :=
  {| dto.CvssMetricV30.CvssData :=
       {| dto.CvssDataV30.BaseScore := 0x1.b333333333333p+2%float;
          dto.CvssDataV30.BaseSeverity := dto.SeverityTypeMedium;
          dto.CvssDataV30.AttackVector := dto.AttackVectorTypeNetwork;
          dto.CvssDataV30.AttackComplexity := dto.AttackComplexityTypeLow;
          dto.CvssDataV30.PrivilegesRequired := dto.PrivilegesRequiredTypeNone;
          dto.CvssDataV30.IntegrityImpact := dto.CiaTypeLow;
          dto.CvssDataV30.AvailabilityImpact := dto.CiaTypeLow;
          dto.CvssDataV30.ExploitCodeMaturity := None |};
     dto.CvssMetricV30.ExploitabilityScore := 0x1.6666666666666p+1%float;
     dto.CvssMetricV30.ImpactScore := 0x1.f333333333333p+1%float |}.

(** [createMockNvdVulnerabilityNoMetrics]. *)
Definition mockNvdVulnerabilityNoMetrics : dto.Vulnerability.t :=
  mockCve None "2024-11-21T02:09:48.080".

(** A target that already carries CVSS values. *)
Definition scoredVulnerability : tools.Vulnerability.t :=
  tools.Vulnerability.set_Access enums.AccessTypeNetwork
    (tools.Vulnerability.set_BaseSeverity enums.SeverityTypeCritical emptyVulnerability).

(** The comments of [Test_parseVendorComments], second case. *)
Definition mixedComments : list dto.VendorComment.t :=
  [ {| dto.VendorComment.Organization := "Red Hat";
       dto.VendorComment.Comment := "Not vulnerable.";
       dto.VendorComment.LastModified := "2008-12-18T00:00:00" |};
    {| dto.VendorComment.Organization := "Blue Hat";
       dto.VendorComment.Comment := "Not vulnerable.";
       dto.VendorComment.LastModified := "2nd of May 2022 at 15:30:45" |} ].

(** Two comments whose timestamps [time.Parse] accepts under the
    vendor-comment layout although they are not of the form
    YYYY-MM-DDTHH:MM:SS: one carries a fractional second, the other a
    one-digit hour. *)
Definition lenientComments : list dto.VendorComment.t :=
  [ {| dto.VendorComment.Organization := "Red Hat";
       dto.VendorComment.Comment := "Not vulnerable.";
       dto.VendorComment.LastModified := "2021-01-01T00:00:00.25" |};
    {| dto.VendorComment.Organization := "Blue Hat";
       dto.VendorComment.Comment := "Fixed.";
       dto.VendorComment.LastModified := "2008-12-18T7:30:00" |} ].

End Fixtures.

(* ===================================================================== *)
(** ** Vocabulary of the properties *)
(* ===================================================================== *)

(** A well-formed lookup key, in the words of the specification: exactly 13
    colon-separated tokens, the first ["cpe"], the second ["2.3"], and
    tokens 2 to 5 not the wildcard.  Tokens 6 to 12 are unconstrained. *)
Definition wellFormedCPE (cpe : string) : Prop :=
  let tokens := strings_Split cpe colon in
  List.length tokens = 13
  /\ nth 0 tokens EmptyString = "cpe"
  /\ nth 1 tokens EmptyString = "2.3"
  /\ forall i, 2 <= i <= 5 -> nth i tokens EmptyString <> "*".

(** The fields of the strict form computed from the fields of the legacy
    form: the first field without its leading slash, wildcards appended up
    to 11 fields, and nothing kept beyond the 11th. *)
Definition strictFields (fields : list string) : list string :=
  firstn 11 (set_first fields (strings_TrimPrefix (nth 0 fields EmptyString) "/")
             ++ repeat "*" (11 - List.length fields)).

(** The [n]-th round trip answers 503. *)
Definition answers_503 {W : HttpWorld} (req : Request) (n : nat) : Prop :=
  exists resp, client_Do n req = Success resp
               /\ StatusCode resp = http_StatusServiceUnavailable.

(** The error of an attempt that met a 503. *)
Definition unavailable : error := Sentinel ErrNVDServiceUnavailable.

(** The trace of [k] failed iterations starting at attempt [a]. *)
Fixpoint backoff_trace (req : Request) (k : nat) (a : Z) : trace :=
  match k with
  | O => []
  | S k' => EvHTTP req :: EvSleep (calculateRetryDelay a) :: backoff_trace req k' (a + 1)%Z
  end.

(** Payloads holding a single entry of one schema version. *)
Definition onlyV31 (e : dto.CvssMetricV31.t) : dto.Metrics.t :=
  {| dto.Metrics.CvssMetricV31 := [e];
     dto.Metrics.CvssMetricV30 := [];
     dto.Metrics.CvssMetricV2 := [] |}.

Definition onlyV30 (e : dto.CvssMetricV30.t) : dto.Metrics.t :=
  {| dto.Metrics.CvssMetricV31 := [];
     dto.Metrics.CvssMetricV30 := [e];
     dto.Metrics.CvssMetricV2 := [] |}.

Definition onlyV2 (e : dto.CvssMetricV2.t) : dto.Metrics.t :=
  {| dto.Metrics.CvssMetricV31 := [];
     dto.Metrics.CvssMetricV30 := [];
     dto.Metrics.CvssMetricV2 := [e] |}.

(** Every canonical field at its Unknown / 0.0 default. *)
Definition allDefaults (x : extracted) : Prop :=
  baseCVSSScore x = 0%float
  /\ baseSeverity x = enums.SeverityTypeUnknown
  /\ impactScore x = 0%float
  /\ access x = enums.AccessTypeUnknown
  /\ complexity x = enums.ComplexityTypeUnknown
  /\ privilegesRequired x = enums.PrivilegesRequiredUnknown
  /\ integrityImpact x = enums.ImpactTypeUnknown
  /\ availabilityImpact x = enums.ImpactTypeUnknown
  /\ tools.Exploit.Score (exploitability x) = 0%float
  /\ tools.Exploit.Exploitability (exploitability x) = enums.ExploitabilityTypeUnknown.

Section CommentVocabulary.
Context {clock : Clock}.

(** The timestamp is accepted under the vendor-comment layout. *)
Definition parses (dateStr : string) : bool :=
  match time_Parse "2006-01-02T15:04:05" dateStr with
  | Success _ => true
  | Failure _ => false
  end.

(** The source comments that survive, in source order. *)
Definition survivors (nvdComments : list dto.VendorComment.t) : list dto.VendorComment.t :=
  filter (fun c => parses (dto.VendorComment.LastModified c)) nvdComments.

(** A canonical comment is the conversion of a source comment. *)
Definition converts (c : dto.VendorComment.t) (r : tools.VendorComment.t) : Prop :=
  tools.VendorComment.Organization r = dto.VendorComment.Organization c
  /\ tools.VendorComment.Comment r = dto.VendorComment.Comment c
  /\ time_Parse "2006-01-02T15:04:05" (dto.VendorComment.LastModified c)
     = Success (tools.VendorComment.LastModified r).

End CommentVocabulary.

Section EnrichVocabulary.
Context {clock : Clock} {scoring : Scoring}.

(** The fields assigned before the dates are parsed hold the source's
    values. *)
Definition overwritten (nvdVuln : dto.Vulnerability.t) (v' : tools.Vulnerability.t) : Prop :=
  let cve := dto.Vulnerability.Cve nvdVuln in
  let m := extractMetrics (dto.CveDetail.Metrics cve) in
  tools.Vulnerability.ID v' = dto.CveDetail.ID cve
  /\ tools.Vulnerability.Type_ v' = dto.CveDetail.SourceIdentifier cve
  /\ tools.Vulnerability.Description v'
     = getEnglishDescription (dto.CveDetail.Descriptions cve)
  /\ tools.Vulnerability.References v' = getReferences (dto.CveDetail.References cve)
  /\ tools.Vulnerability.BaseCVSSScore v' = baseCVSSScore m
  /\ tools.Vulnerability.BaseSeverity v' = baseSeverity m
  /\ tools.Vulnerability.ImpactScore v' = impactScore m
  /\ tools.Vulnerability.Access v' = access m
  /\ tools.Vulnerability.Complexity v' = complexity m
  /\ tools.Vulnerability.PrivilegesRequired v' = privilegesRequired m
  /\ tools.Vulnerability.IntegrityImpact v' = integrityImpact m
  /\ tools.Vulnerability.AvailabilityImpact v' = availabilityImpact m
  /\ tools.Vulnerability.Exploit v' = exploitability m.

(** The fields assigned after the dates are parsed are as they were. *)
Definition untouched_tail (v v' : tools.Vulnerability.t) : Prop :=
  tools.Vulnerability.LastUpdated v' = tools.Vulnerability.LastUpdated v
  /\ tools.Vulnerability.Likelihood v' = tools.Vulnerability.Likelihood v
  /\ tools.Vulnerability.RiskScore v' = tools.Vulnerability.RiskScore v
  /\ tools.Vulnerability.VendorComments v' = tools.Vulnerability.VendorComments v.

End EnrichVocabulary.

(** The strict pattern YYYY-MM-DDTHH:MM:SS of the specification: nineteen
    bytes, digits and the separators at their places, nothing more. *)
Definition strictTimestamp (s : string) : bool :=
  match list_ascii_of_string s with
  | [y1; y2; y3; y4; d1; m1; m2; d2; a1; a2; t; h1; h2; c1; i1; i2; c2; s1; s2] =>
      forallb RefClock.is_digit [y1; y2; y3; y4; m1; m2; a1; a2; h1; h2; i1; i2; s1; s2]
      && Ascii.eqb d1 "-"%char && Ascii.eqb d2 "-"%char && Ascii.eqb t "T"%char
      && Ascii.eqb c1 ":"%char && Ascii.eqb c2 ":"%char
  | _ => false
  end.

(** The source comments whose timestamp has the strict pattern. *)
Definition strictSurvivors (nvdComments : list dto.VendorComment.t)
  : list dto.VendorComment.t :=
  filter (fun c => strictTimestamp (dto.VendorComment.LastModified c)) nvdComments.

(** The mapping tables of the specification, written out from its words:
    the vocabulary of each schema version against the canonical
    enumerations, anything else (and an absent optional field) being
    Unknown. *)
Module SpecTables.

Definition access3 (v : dto.AttackVectorType) : enums.AccessType :=
  match v with
  | dto.AttackVectorTypeNetwork => enums.AccessTypeNetwork
  | dto.AttackVectorTypeAdjacentNetwork => enums.AccessTypeAdjacentNetwork
  | dto.AttackVectorTypeLocal => enums.AccessTypeLocal
  | dto.AttackVectorTypePhysical => enums.AccesTypePhysical
  | dto.AttackVectorTypeOther _ => enums.AccessTypeUnknown
  end.

Definition access2 (v : dto.AccessVectorTypeV2) : enums.AccessType :=
  match v with
  | dto.AccessVectorTypeV2Network => enums.AccessTypeNetwork
  | dto.AccessVectorTypeV2AdjacentNetwork => enums.AccessTypeAdjacentNetwork
  | dto.AccessVectorTypeV2Local => enums.AccessTypeLocal
  | dto.AccessVectorTypeV2Other _ => enums.AccessTypeUnknown
  end.

Definition complexity3 (c : dto.AttackComplexityType) : enums.ComplexityType :=
  match c with
  | dto.AttackComplexityTypeLow => enums.ComplexityTypeLow
  | dto.AttackComplexityTypeHigh => enums.ComplexityTypeHigh
  | dto.AttackComplexityTypeOther _ => enums.ComplexityTypeUnknown
  end.

Definition complexity2 (c : dto.AccessComplexityTypeV2) : enums.ComplexityType :=
  match c with
  | dto.AccessComplexityTypeV2Low => enums.ComplexityTypeLow
  | dto.AccessComplexityTypeV2Medium => enums.ComplexityTypeMedium
  | dto.AccessComplexityTypeV2High => enums.ComplexityTypeHigh
  | dto.AccessComplexityTypeV2Other _ => enums.ComplexityTypeUnknown
  end.

Definition privileges3 (p : dto.PrivilegesRequiredType) : enums.PrivilegesRequiredType :=
  match p with
  | dto.PrivilegesRequiredTypeNone => enums.PrivilegesRequiredNone
  | dto.PrivilegesRequiredTypeLow => enums.PrivilegesRequiredLow
  | dto.PrivilegesRequiredTypeHigh => enums.PrivilegesRequiredHigh
  | dto.PrivilegesRequiredTypeOther _ => enums.PrivilegesRequiredUnknown
  end.

Definition impact3 (c : dto.CiaType) : enums.ImpactType :=
  match c with
  | dto.CiaTypeHigh => enums.ImpactTypeHigh
  | dto.CiaTypeLow => enums.ImpactTypeLow
  | dto.CiaTypeNone => enums.ImpactTypeNone
  | dto.CiaTypeOther _ => enums.ImpactTypeUnknown
  end.

(** COMPLETE is High and PARTIAL is Low. *)
Definition impact2 (c : dto.CiaTypeV2) : enums.ImpactType :=
  match c with
  | dto.CiaTypeV2Complete => enums.ImpactTypeHigh
  | dto.CiaTypeV2Partial => enums.ImpactTypeLow
  | dto.CiaTypeV2None => enums.ImpactTypeNone
  | dto.CiaTypeV2Other _ => enums.ImpactTypeUnknown
  end.

Definition severity3 (v : dto.SeverityType) : enums.SeverityType :=
  match v with
  | dto.SeverityTypeCritical => enums.SeverityTypeCritical
  | dto.SeverityTypeHigh => enums.SeverityTypeHigh
  | dto.SeverityTypeMedium => enums.SeverityTypeMedium
  | dto.SeverityTypeLow => enums.SeverityTypeLow
  | dto.SeverityTypeNone => enums.SeverityTypeNone
  | dto.SeverityTypeOther _ => enums.SeverityTypeUnknown
  end.

Definition maturity3 (x : option dto.ExploitCodeMaturityType) : enums.ExploitabilityType :=
  match x with
  | Some dto.ExploitCodeMaturityTypeUnproven => enums.ExploitabilityTypeUnproven
  | Some dto.ExploitCodeMaturityTypeProofOfConcept => enums.ExploitabilityTypeProofOfConcept
  | Some dto.ExploitCodeMaturityTypeFunctional => enums.ExploitabilityTypeFunctional
  | Some dto.ExploitCodeMaturityTypeHigh => enums.ExploitabilityTypeHigh
  | Some dto.ExploitCodeMaturityTypeNotDefined => enums.ExploitabilityTypeUndefined
  | Some (dto.ExploitCodeMaturityTypeOther _) => enums.ExploitabilityTypeUnknown
  | None => enums.ExploitabilityTypeUnknown
  end.

Definition maturity2 (x : option dto.ExploitabilityTypeV2) : enums.ExploitabilityType :=
  match x with
  | Some dto.ExploitabilityTypeV2Unproven => enums.ExploitabilityTypeUnproven
  | Some dto.ExploitabilityTypeV2ProofOfConcept => enums.ExploitabilityTypeProofOfConcept
  | Some dto.ExploitabilityTypeV2Functional => enums.ExploitabilityTypeFunctional
  | Some dto.ExploitabilityTypeV2High => enums.ExploitabilityTypeHigh
  | Some dto.ExploitabilityTypeV2NotDefined => enums.ExploitabilityTypeUndefined
  | Some (dto.ExploitabilityTypeV2Other _) => enums.ExploitabilityTypeUnknown
  | None => enums.ExploitabilityTypeUnknown
  end.

(** The canonical fields a 3.1 entry stands for. *)
Definition canonicalV31 (e : dto.CvssMetricV31.t) : extracted :=
  let d := dto.CvssMetricV31.CvssData e in
  {| baseCVSSScore := dto.CvssDataV31.BaseScore d;
     baseSeverity := severity3 (dto.CvssDataV31.BaseSeverity d);
     impactScore := dto.CvssMetricV31.ImpactScore e;
     access := access3 (dto.CvssDataV31.AttackVector d);
     complexity := complexity3 (dto.CvssDataV31.AttackComplexity d);
     privilegesRequired := privileges3 (dto.CvssDataV31.PrivilegesRequired d);
     integrityImpact := impact3 (dto.CvssDataV31.IntegrityImpact d);
     availabilityImpact := impact3 (dto.CvssDataV31.AvailabilityImpact d);
     exploitability :=
       {| tools.Exploit.Score := dto.CvssMetricV31.ExploitabilityScore e;
          tools.Exploit.Exploitability := maturity3 (dto.CvssDataV31.ExploitCodeMaturity d) |} |}.

(** The canonical fields a 3.0 entry stands for. *)
Definition canonicalV30 (e : dto.CvssMetricV30.t) : extracted :=
  let d := dto.CvssMetricV30.CvssData e in
  {| baseCVSSScore := dto.CvssDataV30.BaseScore d;
     baseSeverity := severity3 (dto.CvssDataV30.BaseSeverity d);
     impactScore := dto.CvssMetricV30.ImpactScore e;
     access := access3 (dto.CvssDataV30.AttackVector d);
     complexity := complexity3 (dto.CvssDataV30.AttackComplexity d);
     privilegesRequired := privileges3 (dto.CvssDataV30.PrivilegesRequired d);
     integrityImpact := impact3 (dto.CvssDataV30.IntegrityImpact d);
     availabilityImpact := impact3 (dto.CvssDataV30.AvailabilityImpact d);
     exploitability :=
       {| tools.Exploit.Score := dto.CvssMetricV30.ExploitabilityScore e;
          tools.Exploit.Exploitability := maturity3 (dto.CvssDataV30.ExploitCodeMaturity d) |} |}.

(** The canonical fields a 2.0 entry stands for: the severity is banded from
    the base score by the collaborator [band], and there is no
    privileges-required value. *)
Definition canonicalV2 (band : float -> enums.SeverityType) (e : dto.CvssMetricV2.t)
  : extracted :=
  let d := dto.CvssMetricV2.CvssData e in
  {| baseCVSSScore := dto.CvssDataV2.BaseScore d;
     baseSeverity := band (dto.CvssDataV2.BaseScore d);
     impactScore := dto.CvssMetricV2.ImpactScore e;
     access := access2 (dto.CvssDataV2.AccessVector d);
     complexity := complexity2 (dto.CvssDataV2.AccessComplexity d);
     privilegesRequired := enums.PrivilegesRequiredUnknown;
     integrityImpact := impact2 (dto.CvssDataV2.IntegrityImpact d);
     availabilityImpact := impact2 (dto.CvssDataV2.AvailabilityImpact d);
     exploitability :=
       {| tools.Exploit.Score := dto.CvssMetricV2.ExploitabilityScore e;
          tools.Exploit.Exploitability := maturity2 (dto.CvssDataV2.Exploitability d) |} |}.

End SpecTables.

(** The error returned once every allowed attempt has met a 503. *)
Definition exhausted : error :=
  ErrorfW "failed NVD API request after %d retries: %w"
          [ArgInt maxRetries] (Sentinel ErrNVDServiceUnavailable).

(** A result that ends the retry loop at once: a value, or an error that
    [shouldRetry] rejects. *)
Definition terminal {A : Type} (r : result A) : Prop :=
  match r with
  | Ok _ => True
  | Fail e => errors_Is e ErrNVDServiceUnavailable = false
  end.

(** The delays of the four iterations of the loop, in order. *)
Definition backoff_delays : list Duration :=
  [6 * time_Second; 12 * time_Second; 15 * time_Second; 15 * time_Second]%Z.

(** A CVSS 3.0 entry read as the 3.1 entry with the same field values. *)
Definition v30_as_v31 (e : dto.CvssMetricV30.t) : dto.CvssMetricV31.t :=
  let d := dto.CvssMetricV30.CvssData e in
  {| dto.CvssMetricV31.CvssData :=
       {| dto.CvssDataV31.BaseScore := dto.CvssDataV30.BaseScore d;
          dto.CvssDataV31.BaseSeverity := dto.CvssDataV30.BaseSeverity d;
          dto.CvssDataV31.AttackVector := dto.CvssDataV30.AttackVector d;
          dto.CvssDataV31.AttackComplexity := dto.CvssDataV30.AttackComplexity d;
          dto.CvssDataV31.PrivilegesRequired := dto.CvssDataV30.PrivilegesRequired d;
          dto.CvssDataV31.IntegrityImpact := dto.CvssDataV30.IntegrityImpact d;
          dto.CvssDataV31.AvailabilityImpact := dto.CvssDataV30.AvailabilityImpact d;
          dto.CvssDataV31.ExploitCodeMaturity := dto.CvssDataV30.ExploitCodeMaturity d |};
     dto.CvssMetricV31.ExploitabilityScore := dto.CvssMetricV30.ExploitabilityScore e;
     dto.CvssMetricV31.ImpactScore := dto.CvssMetricV30.ImpactScore e |}.

(** No description of the list is tagged ["en"]. *)
Definition no_english (descriptions : list dto.Description.t) : Prop :=
  Forall (fun d => dto.Description.Lang d <> "en") descriptions.

(** Flattens a chain of field assignments into one record. *)
Ltac flatten_assignments :=
  cbv beta iota zeta delta
    [
     tools.Vulnerability.set_ID tools.Vulnerability.set_Type_
     tools.Vulnerability.set_Description tools.Vulnerability.set_References
     tools.Vulnerability.set_BaseCVSSScore tools.Vulnerability.set_BaseSeverity
     tools.Vulnerability.set_ImpactScore tools.Vulnerability.set_Access
     tools.Vulnerability.set_Complexity tools.Vulnerability.set_PrivilegesRequired
     tools.Vulnerability.set_IntegrityImpact tools.Vulnerability.set_AvailabilityImpact
     tools.Vulnerability.set_Exploit tools.Vulnerability.set_Published
     tools.Vulnerability.set_LastUpdated tools.Vulnerability.set_Likelihood
     tools.Vulnerability.set_RiskScore tools.Vulnerability.set_VendorComments
     tools.Vulnerability.ID tools.Vulnerability.Type_ tools.Vulnerability.Description
     tools.Vulnerability.References tools.Vulnerability.BaseCVSSScore
     tools.Vulnerability.BaseSeverity tools.Vulnerability.ImpactScore
     tools.Vulnerability.Access tools.Vulnerability.Complexity
     tools.Vulnerability.PrivilegesRequired tools.Vulnerability.IntegrityImpact
     tools.Vulnerability.AvailabilityImpact tools.Vulnerability.Exploit
     tools.Vulnerability.Published tools.Vulnerability.LastUpdated
     tools.Vulnerability.Likelihood tools.Vulnerability.RiskScore
     tools.Vulnerability.VendorComments ].


(* ===================================================================== *)
(** * Properties *)
(* ===================================================================== *)

(** ** Worked examples *)

Example standardizeCPE_windows :
  standardizeCPE "cpe:/o:microsoft:windows_10:1607"
  = ("cpe:2.3:o:microsoft:windows_10:1607:*:*:*:*:*:*:*", None).
Proof. reflexivity. Qed.

Example isValidCPE_windows :
  isValidCPE "cpe:2.3:o:microsoft:windows_10:1607:*:*:*:*:*:*:*" = None.
Proof. reflexivity. Qed.

Example calculateRetryDelay_values :
  map calculateRetryDelay [0; 1; 2; 3]%Z
  = [6 * time_Second; 12 * time_Second; 15 * time_Second; 15 * time_Second]%Z.
Proof. vm_compute. reflexivity. Qed.

(** ** Splitting and joining *)

Section SplitJoin.
Variable sep : ascii.

Lemma strings_Split_nonempty (s : string) : strings_Split s sep <> [].
Proof.
  destruct s as [|c s]; simpl; [discriminate|].
  destruct (Ascii.eqb c sep); [discriminate|].
  destruct (strings_Split s sep); discriminate.
Qed.

(** No token produced by a split contains the separator. *)
Lemma strings_Split_tokens_clean (s : string) :
  Forall (fun tok => contains_byte sep tok = false) (strings_Split s sep).
Proof.
  induction s as [|c s IH]; simpl.
  - repeat constructor.
  - destruct (Ascii.eqb c sep) eqn:Hc.
    + constructor; [reflexivity|exact IH].
    + destruct (strings_Split s sep) as [|tok toks].
      * repeat constructor. simpl. rewrite Hc. reflexivity.
      * inversion IH; subst. constructor; [|assumption].
        simpl. rewrite Hc. assumption.
Qed.

(** Splitting a clean token gives the token back. *)
Lemma strings_Split_clean (tok : string) :
  contains_byte sep tok = false -> strings_Split tok sep = [tok].
Proof.
  induction tok as [|c tok IH]; simpl; intros H; [reflexivity|].
  apply orb_false_iff in H as [Hc Htok].
  rewrite Hc, (IH Htok). reflexivity.
Qed.

(** Splitting a clean token followed by a separator and more text. *)
Lemma strings_Split_app (tok rest : string) :
  contains_byte sep tok = false ->
  strings_Split (tok ++ String sep rest) sep = tok :: strings_Split rest sep.
Proof.
  induction tok as [|c tok IH]; simpl; intros H.
  - rewrite Ascii.eqb_refl. reflexivity.
  - apply orb_false_iff in H as [Hc Htok].
    rewrite Hc, (IH Htok). reflexivity.
Qed.

(** Joining clean tokens with the separator and splitting again is the
    identity on non-empty lists. *)
Lemma strings_Split_Join (toks : list string) :
  toks <> [] ->
  Forall (fun tok => contains_byte sep tok = false) toks ->
  strings_Split (strings_Join toks (String sep EmptyString)) sep = toks.
Proof.
  induction toks as [|tok toks IH]; intros Hne Hclean; [congruence|].
  inversion Hclean as [|? ? Htok Hrest]; subst.
  destruct toks as [|tok' toks].
  - simpl. apply strings_Split_clean. assumption.
  - change (strings_Join (tok :: tok' :: toks) (String sep EmptyString))
      with (tok ++ String sep (strings_Join (tok' :: toks) (String sep EmptyString)))%string.
    rewrite strings_Split_app by assumption.
    rewrite IH; [reflexivity|discriminate|assumption].
Qed.

Lemma drop_bytes_clean (n : nat) (s : string) :
  contains_byte sep s = false -> contains_byte sep (drop_bytes n s) = false.
Proof.
  revert s. induction n as [|n IH]; intros s H; [exact H|].
  destruct s as [|c s]; [reflexivity|].
  simpl in *. apply orb_false_iff in H as [_ H]. apply IH. exact H.
Qed.

Lemma strings_TrimPrefix_clean (s prefix : string) :
  contains_byte sep s = false -> contains_byte sep (strings_TrimPrefix s prefix) = false.
Proof.
  intros H. unfold strings_TrimPrefix.
  destruct (strings_HasPrefix s prefix); [apply drop_bytes_clean|]; exact H.
Qed.

End SplitJoin.

(** ** CPE validator *)

Lemma checkComponents_None (parts : list string) :
  checkComponents parts componentsToCheck = None <->
  forall i, 2 <= i <= 5 -> nth i parts EmptyString <> "*".
Proof.
  unfold componentsToCheck, checkComponents, at_index; simpl.
  split.
  - intros H i Hi.
    destruct (String.eqb_spec (nth 2 parts EmptyString) "*"); [discriminate|].
    destruct (String.eqb_spec (nth 3 parts EmptyString) "*"); [discriminate|].
    destruct (String.eqb_spec (nth 4 parts EmptyString) "*"); [discriminate|].
    destruct (String.eqb_spec (nth 5 parts EmptyString) "*"); [discriminate|].
    assert (i = 2 \/ i = 3 \/ i = 4 \/ i = 5) as [ -> | [ -> | [ -> | -> ] ] ] by lia; assumption.
  - intros H.
    destruct (String.eqb_spec (nth 2 parts EmptyString) "*") as [E|_];
      [exfalso; apply (H 2); [lia|exact E]|].
    destruct (String.eqb_spec (nth 3 parts EmptyString) "*") as [E|_];
      [exfalso; apply (H 3); [lia|exact E]|].
    destruct (String.eqb_spec (nth 4 parts EmptyString) "*") as [E|_];
      [exfalso; apply (H 4); [lia|exact E]|].
    destruct (String.eqb_spec (nth 5 parts EmptyString) "*") as [E|_];
      [exfalso; apply (H 5); [lia|exact E]|].
    reflexivity.
Qed.

Lemma checkComponents_error (parts : list string) (comps : list component) (e : error) :
  checkComponents parts comps = Some e -> errors_Is e ErrInvalidCPE = true.
Proof.
  induction comps as [|comp comps IH]; simpl; [discriminate|].
  destruct (String.eqb _ _); [|exact IH].
  intros [= <-]. reflexivity.
Qed.

Lemma isValidCPE_None (cpe : string) : isValidCPE cpe = None <-> wellFormedCPE cpe.
Proof.
  unfold isValidCPE, wellFormedCPE, at_index.
  set (parts := strings_Split cpe colon).
  destruct (Nat.eqb_spec (List.length parts) 13) as [Hlen|Hlen]; cbn [negb].
  2: { split; [discriminate|]. intros [H _]. contradiction. }
  destruct (String.eqb_spec (nth 0 parts EmptyString) "cpe") as [H0|H0]; cbn [negb].
  2: { split; [discriminate|]. intros (_ & H & _). contradiction. }
  destruct (String.eqb_spec (nth 1 parts EmptyString) "2.3") as [H1|H1]; cbn [negb].
  2: { split; [discriminate|]. intros (_ & _ & H & _). contradiction. }
  rewrite checkComponents_None. tauto.
Qed.

Lemma isValidCPE_error (cpe : string) (e : error) :
  isValidCPE cpe = Some e -> errors_Is e ErrInvalidCPE = true.
Proof.
  unfold isValidCPE.
  destruct (negb _); [intros [= <-]; reflexivity|].
  destruct (negb _); [intros [= <-]; reflexivity|].
  destruct (negb _); [intros [= <-]; reflexivity|].
  apply checkComponents_error.
Qed.

(** C5.  [isValidCPE] returns no error on every well-formed lookup key (13
    colon-separated tokens, ["cpe"], ["2.3"], tokens 2 to 5 not the
    wildcard, tokens 6 to 12 unconstrained), and on every other string it
    returns an error that wraps [ErrInvalidCPE]. *)
Theorem isValidCPE_exactly_wellFormed (cpe : string) :
  (wellFormedCPE cpe -> isValidCPE cpe = None)
  /\ (~ wellFormedCPE cpe ->
      exists e, isValidCPE cpe = Some e /\ errors_Is e ErrInvalidCPE = true).
Proof.
  split.
  - apply isValidCPE_None.
  - intros Hbad. destruct (isValidCPE cpe) as [e|] eqn:He.
    + exists e. split; [reflexivity|]. apply isValidCPE_error with cpe. exact He.
    + exfalso. apply Hbad. apply isValidCPE_None. exact He.
Qed.

Lemma isValidCPE_exactly_wellFormed_witness :
  isValidCPE "cpe:2.3:o:microsoft:windows_10:1607:*:*:*:*:*:*:*" = None
  /\ exists e, isValidCPE "cpe:2.3:*:microsoft:windows_10:1607:*:*:*:*:*:*:*" = Some e
               /\ errors_Is e ErrInvalidCPE = true.
Proof.
  split.
  - apply (proj1 (isValidCPE_exactly_wellFormed
                    "cpe:2.3:o:microsoft:windows_10:1607:*:*:*:*:*:*:*")).
    repeat split; try reflexivity.
    intros i Hi.
    assert (i = 2 \/ i = 3 \/ i = 4 \/ i = 5) as [ -> | [ -> | [ -> | -> ] ] ] by lia;
      vm_compute; discriminate.
  - apply (proj2 (isValidCPE_exactly_wellFormed
                    "cpe:2.3:*:microsoft:windows_10:1607:*:*:*:*:*:*:*")).
    intros (_ & _ & _ & H). apply (H 2); [lia|reflexivity].
Defined.

(** ** CPE normaliser *)

Lemma set_first_length (parts : list string) (x : string) :
  List.length (set_first parts x) = List.length parts.
Proof. destruct parts; reflexivity. Qed.

Lemma set_first_clean (c : ascii) (parts : list string) (x : string) :
  contains_byte c x = false ->
  Forall (fun tok => contains_byte c tok = false) parts ->
  Forall (fun tok => contains_byte c tok = false) (set_first parts x).
Proof.
  intros Hx Hparts. destruct parts as [|p parts]; [constructor|].
  inversion Hparts; subst. constructor; assumption.
Qed.

Lemma Forall_firstn {A} (P : A -> Prop) (n : nat) (l : list A) :
  Forall P l -> Forall P (firstn n l).
Proof.
  revert l. induction n as [|n IH]; intros l H; [constructor|].
  destruct l as [|a l]; [constructor|].
  inversion H; subst. simpl. constructor; [assumption|apply IH; assumption].
Qed.

Lemma Forall_repeat {A} (P : A -> Prop) (x : A) (n : nat) : P x -> Forall P (repeat x n).
Proof. intros H. induction n; simpl; constructor; assumption. Qed.

(** The three-way padding of [standardizeCPE] is "pad, then keep 11". *)
Lemma pad_or_truncate (parts : list string) :
  (let paddingNeeded := (11 - Z.of_nat (List.length parts))%Z in
   if (0 <? paddingNeeded)%Z then parts ++ repeat "*" (Z.to_nat paddingNeeded)
   else if (paddingNeeded <? 0)%Z then firstn 11 parts
   else parts)
  = firstn 11 (parts ++ repeat "*" (11 - List.length parts)).
Proof.
  cbv zeta.
  destruct (Z.ltb_spec 0 (11 - Z.of_nat (List.length parts))) as [Hpad|Hpad].
  - replace (Z.to_nat (11 - Z.of_nat (List.length parts))) with (11 - List.length parts) by lia.
    symmetry. apply firstn_all2. rewrite length_app, repeat_length. lia.
  - destruct (Z.ltb_spec (11 - Z.of_nat (List.length parts)) 0) as [Hcut|Hcut].
    + replace (11 - List.length parts) with 0 by lia.
      cbn [repeat]. rewrite app_nil_r. reflexivity.
    + replace (11 - List.length parts) with 0 by lia.
      cbn [repeat]. rewrite app_nil_r. symmetry. apply firstn_all2. lia.
Qed.

Lemma strictFields_length (fields : list string) : List.length (strictFields fields) = 11.
Proof.
  unfold strictFields. rewrite length_firstn, length_app, repeat_length, set_first_length. lia.
Qed.

Lemma strictFields_clean (fields : list string) :
  Forall (fun tok => contains_byte colon tok = false) fields ->
  Forall (fun tok => contains_byte colon tok = false) (strictFields fields).
Proof.
  intros H. unfold strictFields. apply Forall_firstn. apply Forall_app. split.
  - apply set_first_clean; [|exact H]. apply strings_TrimPrefix_clean.
    destruct fields as [|f fields]; [reflexivity|]. inversion H; subst. assumption.
  - apply Forall_repeat. reflexivity.
Qed.

Lemma standardizeCPE_ok (cpe : string) :
  strings_HasPrefix cpe "cpe:/" = true ->
  4 <= List.length (strings_Split (strings_TrimPrefix cpe "cpe:/") colon) ->
  standardizeCPE cpe
  = (("cpe:2.3:"
      ++ strings_Join (strictFields (strings_Split (strings_TrimPrefix cpe "cpe:/") colon)) ":")%string,
     None).
Proof.
  intros Hprefix Hlen. unfold standardizeCPE. rewrite Hprefix. cbn [negb].
  destruct (Nat.ltb_spec (List.length (strings_Split (strings_TrimPrefix cpe "cpe:/") colon)) 4);
    [lia|].
  cbv zeta. rewrite pad_or_truncate. unfold strictFields, at_index.
  rewrite set_first_length. reflexivity.
Qed.

(** C6.  On a legacy CPE (prefix ["cpe:/"]) whose remainder has at least 4
    colon-separated fields, [standardizeCPE] succeeds with ["cpe:2.3:"]
    followed by exactly 11 colon-separated fields: the input fields with the
    leading slash of the first one removed, padded with wildcards or cut to
    11.  Without the prefix, or with fewer than 4 fields, it fails and
    returns the empty string. *)
Theorem standardizeCPE_eleven_fields (cpe : string) :
  let fields := strings_Split (strings_TrimPrefix cpe "cpe:/") colon in
  (strings_HasPrefix cpe "cpe:/" = true -> 4 <= List.length fields ->
   exists out,
     standardizeCPE cpe = (("cpe:2.3:" ++ out)%string, None)
     /\ List.length (strings_Split out colon) = 11
     /\ strings_Split out colon = strictFields fields)
  /\ (strings_HasPrefix cpe "cpe:/" = false \/ List.length fields < 4 ->
      exists e, standardizeCPE cpe = (EmptyString, Some e)).
Proof.
  intros fields. split.
  - intros Hprefix Hlen.
    exists (strings_Join (strictFields fields) ":").
    assert (Hsplit : strings_Split (strings_Join (strictFields fields) ":") colon
                     = strictFields fields).
    { apply strings_Split_Join.
      - intros Hnil. pose proof (strictFields_length fields) as L.
        rewrite Hnil in L. discriminate.
      - apply strictFields_clean. apply strings_Split_tokens_clean. }
    split; [apply standardizeCPE_ok; assumption|].
    rewrite Hsplit. split; [apply strictFields_length|reflexivity].
  - intros H. unfold standardizeCPE.
    destruct (strings_HasPrefix cpe "cpe:/") eqn:Hprefix; cbn [negb].
    + destruct H as [H|H]; [discriminate|].
      fold fields. destruct (Nat.ltb_spec (List.length fields) 4); [|lia].
      eexists. reflexivity.
    + eexists. reflexivity.
Qed.

Lemma standardizeCPE_eleven_fields_witness :
  (exists out,
     standardizeCPE "cpe:/o:microsoft:windows_10:1607" = (("cpe:2.3:" ++ out)%string, None)
     /\ List.length (strings_Split out colon) = 11
     /\ strings_Split out colon
        = ["o"; "microsoft"; "windows_10"; "1607"; "*"; "*"; "*"; "*"; "*"; "*"; "*"])
  /\ (exists e, standardizeCPE "cpe:/a:dovecot:dovecot" = (EmptyString, Some e)).
Proof.
  split.
  - apply (proj1 (standardizeCPE_eleven_fields "cpe:/o:microsoft:windows_10:1607")).
    + reflexivity.
    + vm_compute. lia.
  - apply (proj2 (standardizeCPE_eleven_fields "cpe:/a:dovecot:dovecot")).
    right. vm_compute. lia.
Defined.

(** ** Resilient fetcher *)

Section FetcherProperties.
Context {W : HttpWorld}.
Variables (cpe baseNvdAPIURL : string) (req : Request).
Hypothesis request_built : http_NewRequest "GET" (buildURL cpe baseNvdAPIURL) = Success req.

Local Abbreviation apiURL := (buildURL cpe baseNvdAPIURL).

(** One attempt against a 503 is one round trip and the sentinel. *)
Lemma attemptFetch_503 (tr : trace) :
  answers_503 req (http_calls tr) ->
  attemptFetch apiURL tr = (Fail unavailable, tr ++ [EvHTTP req]).
Proof.
  intros (resp & Hdo & Hstatus).
  unfold attemptFetch. rewrite request_built.
  unfold bind, do_request. rewrite Hdo, Hstatus. reflexivity.
Qed.

(** One iteration of the loop against a 503: a round trip, then a sleep,
    whatever iteration it is. *)
Lemma retryLoop_503 (iterations : nat) (attempt : Z) (err : option error) (tr : trace) :
  answers_503 req (http_calls tr) ->
  retryLoop cpe apiURL (S iterations) attempt err tr
  = retryLoop cpe apiURL iterations (attempt + 1)%Z (Some unavailable)
              (tr ++ [EvHTTP req; EvSleep (calculateRetryDelay attempt)]).
Proof.
  intros H. cbn [retryLoop]. unfold bind at 1.
  rewrite (attemptFetch_503 tr H).
  cbn [shouldRetry errors_Is unavailable sentinel_eqb negb].
  unfold bind, time_Sleep. rewrite <- app_assoc. reflexivity.
Qed.

(** One iteration of the loop against a decodable 200: a round trip and the
    decoded body, with nothing after it. *)
Lemma retryLoop_200 (iterations : nat) (attempt : Z) (err : option error) (tr : trace)
      (resp : Response) (body : NvdAPIResponse) :
  client_Do (http_calls tr) req = Success resp ->
  StatusCode resp = http_StatusOK ->
  json_Decode (Body resp) = Success body ->
  retryLoop cpe apiURL (S iterations) attempt err tr = (Ok body, tr ++ [EvHTTP req]).
Proof.
  intros Hdo Hstatus Hdecode. cbn [retryLoop]. unfold bind at 1.
  unfold attemptFetch. rewrite request_built.
  unfold bind, do_request. rewrite Hdo, Hstatus, Hdecode. reflexivity.
Qed.

Lemma http_calls_app (tr tr' : trace) : http_calls (tr ++ tr') = http_calls tr + http_calls tr'.
Proof. unfold http_calls. rewrite filter_app, length_app. reflexivity. Qed.

Lemma http_calls_backoff (k : nat) (a : Z) : http_calls (backoff_trace req k a) = k.
Proof.
  revert a. induction k as [|k IH]; intros a; [reflexivity|].
  change (http_calls (backoff_trace req (S k) a)) with (S (http_calls (backoff_trace req k (a + 1)%Z))).
  rewrite IH. reflexivity.
Qed.

Lemma sleeps_backoff (k : nat) (a : Z) : List.length (sleeps (backoff_trace req k a)) = k.
Proof.
  revert a. induction k as [|k IH]; intros a; [reflexivity|].
  simpl. rewrite IH. reflexivity.
Qed.

(** [k] iterations against 503s, from any point of a run. *)
Lemma retryLoop_503s (k iterations : nat) (attempt : Z) (err : option error) (tr : trace) :
  (forall n, http_calls tr <= n < http_calls tr + k -> answers_503 req n) ->
  0 < k ->
  retryLoop cpe apiURL (k + iterations) attempt err tr
  = retryLoop cpe apiURL iterations (attempt + Z.of_nat k)%Z (Some unavailable)
              (tr ++ backoff_trace req k attempt).
Proof.
  revert attempt err tr. induction k as [|k IH]; intros attempt err tr H503 Hk; [lia|].
  change (S k + iterations) with (S (k + iterations)).
  rewrite retryLoop_503 by (apply H503; lia).
  destruct k as [|k].
  - cbn [backoff_trace plus]. f_equal.
  - rewrite IH; [|intros n Hn; apply H503; rewrite http_calls_app in Hn;
                    cbn in Hn; lia|lia].
    rewrite <- app_assoc. f_equal. lia.
Qed.

End FetcherProperties.

(** C2.  In a run whose request is well-formed: when every round trip
    answers 503, [fetchNvdDataByCPE] makes exactly [maxRetries + 1] = 4
    round trips and fails with the last retriable error,
    [ErrNVDServiceUnavailable], wrapped together with the retry count; and
    when a round trip (after any number of 503s) answers 200 with a body that
    decodes, it returns the decoded body at once, that round trip being the
    last effect of the run. *)
Theorem fetch_exhausts_or_returns {W : HttpWorld} (cpe baseNvdAPIURL : string) (req : Request) :
  http_NewRequest "GET" (buildURL cpe baseNvdAPIURL) = Success req ->
  ((forall n, n <= Z.to_nat maxRetries -> answers_503 req n) ->
   exists tr,
     fetchNvdDataByCPE cpe baseNvdAPIURL []
     = (Fail (ErrorfW "failed NVD API request after %d retries: %w"
                      [ArgInt maxRetries] (Sentinel ErrNVDServiceUnavailable)), tr)
     /\ http_calls tr = Z.to_nat (maxRetries + 1))
  /\ (forall k resp body,
        k <= Z.to_nat maxRetries ->
        (forall n, n < k -> answers_503 req n) ->
        client_Do k req = Success resp ->
        StatusCode resp = http_StatusOK ->
        json_Decode (Body resp) = Success body ->
        exists tr,
          fetchNvdDataByCPE cpe baseNvdAPIURL [] = (Ok body, tr ++ [EvHTTP req])
          /\ http_calls (tr ++ [EvHTTP req]) = S k).
Proof.
  intros Hreq. split.
  - intros H503. unfold fetchNvdDataByCPE.
    change (Z.to_nat (maxRetries + 1)) with (4 + 0).
    rewrite (retryLoop_503s cpe baseNvdAPIURL req Hreq 4 0 0%Z None []);
      [|intros n Hn; apply H503; cbn in *; lia|lia].
    eexists. split; [reflexivity|].
    rewrite app_nil_l. apply http_calls_backoff.
  - intros k resp body Hk H503 Hdo Hstatus Hdecode. unfold fetchNvdDataByCPE.
    change (Z.to_nat maxRetries) with 3 in Hk.
    change (Z.to_nat (maxRetries + 1)) with 4.
    exists (backoff_trace req k 0%Z).
    assert (Hcalls : http_calls (backoff_trace req k 0%Z) = k) by apply http_calls_backoff.
    split.
    + destruct k as [|k].
      * apply (retryLoop_200 cpe baseNvdAPIURL req Hreq 3 0%Z None [] resp body);
          assumption.
      * replace 4 with (S k + S (3 - S k)) by lia.
        rewrite (retryLoop_503s cpe baseNvdAPIURL req Hreq (S k) _ 0%Z None []);
          [|intros n Hn; apply H503; cbn in Hn; lia|lia].
        rewrite app_nil_l.
        apply (retryLoop_200 cpe baseNvdAPIURL req Hreq _ _ _ _ resp body);
          [rewrite Hcalls|idtac|idtac]; assumption.
    + rewrite http_calls_app, Hcalls. cbn. lia.
Qed.

(** C3.  What the code does on a server that answers 503 to every round
    trip: each of the four attempts, the last one included, is followed by a
    sleep, so the run makes [maxRetries + 1] = 4 suspensions (6, 12, 15 and
    15 seconds) and its last effect before failing is a sleep. *)
Theorem fetch_sleeps_after_every_attempt {W : HttpWorld}
        (cpe baseNvdAPIURL : string) (req : Request) :
  http_NewRequest "GET" (buildURL cpe baseNvdAPIURL) = Success req ->
  (forall n, n <= Z.to_nat maxRetries -> answers_503 req n) ->
  exists e,
    fetchNvdDataByCPE cpe baseNvdAPIURL []
    = (Fail e,
       [EvHTTP req; EvSleep (6 * time_Second)%Z;
        EvHTTP req; EvSleep (12 * time_Second)%Z;
        EvHTTP req; EvSleep (15 * time_Second)%Z;
        EvHTTP req; EvSleep (15 * time_Second)%Z])
    /\ List.length (sleeps (snd (fetchNvdDataByCPE cpe baseNvdAPIURL [])))
       = Z.to_nat (maxRetries + 1).
Proof.
  intros Hreq H503. unfold fetchNvdDataByCPE.
  change (Z.to_nat (maxRetries + 1)) with (4 + 0).
  rewrite (retryLoop_503s cpe baseNvdAPIURL req Hreq 4 0 0%Z None []);
    [|intros n Hn; apply H503; cbn in *; lia|lia].
  eexists. split; reflexivity.
Qed.


Lemma fetch_exhausts_or_returns_witness :
  (exists tr,
     @fetchNvdDataByCPE RefHttp.alwaysUnavailable RefHttp.testCPE RefHttp.testURL []
     = (Fail (ErrorfW "failed NVD API request after %d retries: %w"
                      [ArgInt maxRetries] (Sentinel ErrNVDServiceUnavailable)), tr)
     /\ http_calls tr = 4)
  /\ (exists tr,
        @fetchNvdDataByCPE RefHttp.recovering RefHttp.testCPE RefHttp.testURL []
        = (Ok {| RefHttp.TotalResults := 1 |}, tr ++ [EvHTTP RefHttp.testRequest])
        /\ http_calls (tr ++ [EvHTTP RefHttp.testRequest]) = 4).
Proof.
  assert (Hdown : @http_NewRequest RefHttp.alwaysUnavailable "GET"
                    (@buildURL RefHttp.alwaysUnavailable RefHttp.testCPE RefHttp.testURL)
                  = Success RefHttp.testRequest) by (vm_compute; reflexivity).
  assert (Hup : @http_NewRequest RefHttp.recovering "GET"
                  (@buildURL RefHttp.recovering RefHttp.testCPE RefHttp.testURL)
                = Success RefHttp.testRequest) by (vm_compute; reflexivity).
  pose proof (@fetch_exhausts_or_returns RefHttp.alwaysUnavailable
                RefHttp.testCPE RefHttp.testURL RefHttp.testRequest Hdown) as [Hfail _].
  pose proof (@fetch_exhausts_or_returns RefHttp.recovering
                RefHttp.testCPE RefHttp.testURL RefHttp.testRequest Hup) as [_ Hok].
  specialize (Hok 3 RefHttp.success {| RefHttp.TotalResults := 1 |}).
  split.
  - apply Hfail. intros n _. exists RefHttp.unavailable. split; reflexivity.
  - apply Hok.
    + change (Z.to_nat maxRetries) with 3. lia.
    + intros n Hn. exists RefHttp.unavailable. split; [|reflexivity].
      change (client_Do n RefHttp.testRequest)
        with (if Nat.ltb n 3 then Success RefHttp.unavailable else Success RefHttp.success).
      destruct (Nat.ltb_spec n 3); [reflexivity|lia].
    + reflexivity.
    + reflexivity.
    + reflexivity.
Defined.

Lemma fetch_sleeps_after_every_attempt_witness :
  exists e,
    @fetchNvdDataByCPE RefHttp.alwaysUnavailable RefHttp.testCPE RefHttp.testURL []
    = (Fail e,
       [EvHTTP RefHttp.testRequest; EvSleep (6 * time_Second)%Z;
        EvHTTP RefHttp.testRequest; EvSleep (12 * time_Second)%Z;
        EvHTTP RefHttp.testRequest; EvSleep (15 * time_Second)%Z;
        EvHTTP RefHttp.testRequest; EvSleep (15 * time_Second)%Z])
    /\ List.length
         (sleeps (snd (@fetchNvdDataByCPE RefHttp.alwaysUnavailable
                         RefHttp.testCPE RefHttp.testURL [])))
       = Z.to_nat (maxRetries + 1).
Proof.
  assert (Hdown : @http_NewRequest RefHttp.alwaysUnavailable "GET"
                    (@buildURL RefHttp.alwaysUnavailable RefHttp.testCPE RefHttp.testURL)
                  = Success RefHttp.testRequest) by (vm_compute; reflexivity).
  pose proof (@fetch_sleeps_after_every_attempt RefHttp.alwaysUnavailable
                RefHttp.testCPE RefHttp.testURL RefHttp.testRequest Hdown) as H.
  apply H. intros n _. exists RefHttp.unavailable. split; reflexivity.
Defined.


(** ** CVSS metric extractor *)

Section ExtractorProperties.
Context {scoring : Scoring}.

Lemma extractDefaults_allDefaults : allDefaults extractDefaults.
Proof. repeat split. Qed.

(** The mapping functions of the source are the tables of the
    specification. *)
Lemma mapping_tables :
  (forall v, mapAccessTypeV31AndV30 v = SpecTables.access3 v)
  /\ (forall v, mapAccessTypeV2 v = SpecTables.access2 v)
  /\ (forall c, mapComplexityTypeV31AndV30 c = SpecTables.complexity3 c)
  /\ (forall c, mapComplexityTypeV2 c = SpecTables.complexity2 c)
  /\ (forall p, mapPrivilegesRequiredTypeV31AndV30 p = SpecTables.privileges3 p)
  /\ (forall c, mapImpactTypeV31AndV30 c = SpecTables.impact3 c)
  /\ (forall c, mapImpactTypeV2 c = SpecTables.impact2 c)
  /\ (forall v, mapSeverityType v = SpecTables.severity3 v)
  /\ (forall x, mapExploitabilityV31AndV30 x = SpecTables.maturity3 x)
  /\ (forall x, mapExploitabilityV2 x = SpecTables.maturity2 x).
Proof.
  repeat split; intros x; try (destruct x as [[]|]; reflexivity); destruct x; reflexivity.
Qed.

Lemma extractMetrics_first_V31 (m : dto.Metrics.t) (e : dto.CvssMetricV31.t) rest :
  dto.Metrics.CvssMetricV31 m = e :: rest ->
  extractMetrics (Some m) = SpecTables.canonicalV31 e.
Proof.
  intros H. unfold extractMetrics. rewrite H. unfold SpecTables.canonicalV31. cbv zeta.
  destruct mapping_tables as (Ha3 & Ha2 & Hc3 & Hc2 & Hp3 & Hi3 & Hi2 & Hs3 & Hm3 & Hm2).
  rewrite ?Ha3, ?Ha2, ?Hc3, ?Hc2, ?Hp3, ?Hi3, ?Hi2, ?Hs3, ?Hm3, ?Hm2. reflexivity.
Qed.

Lemma extractMetrics_first_V30 (m : dto.Metrics.t) (e : dto.CvssMetricV30.t) rest :
  dto.Metrics.CvssMetricV31 m = [] ->
  dto.Metrics.CvssMetricV30 m = e :: rest ->
  extractMetrics (Some m) = SpecTables.canonicalV30 e.
Proof.
  intros H31 H30. unfold extractMetrics. rewrite H31, H30.
  unfold SpecTables.canonicalV30. cbv zeta.
  destruct mapping_tables as (Ha3 & Ha2 & Hc3 & Hc2 & Hp3 & Hi3 & Hi2 & Hs3 & Hm3 & Hm2).
  rewrite ?Ha3, ?Ha2, ?Hc3, ?Hc2, ?Hp3, ?Hi3, ?Hi2, ?Hs3, ?Hm3, ?Hm2. reflexivity.
Qed.

Lemma extractMetrics_first_V2 (m : dto.Metrics.t) (e : dto.CvssMetricV2.t) rest :
  dto.Metrics.CvssMetricV31 m = [] ->
  dto.Metrics.CvssMetricV30 m = [] ->
  dto.Metrics.CvssMetricV2 m = e :: rest ->
  extractMetrics (Some m) = SpecTables.canonicalV2 MapCVSS e.
Proof.
  intros H31 H30 H2. unfold extractMetrics. rewrite H31, H30, H2.
  unfold SpecTables.canonicalV2. cbv zeta.
  destruct mapping_tables as (Ha3 & Ha2 & Hc3 & Hc2 & Hp3 & Hi3 & Hi2 & Hs3 & Hm3 & Hm2).
  rewrite ?Ha3, ?Ha2, ?Hc3, ?Hc2, ?Hp3, ?Hi3, ?Hi2, ?Hs3, ?Hm3, ?Hm2. reflexivity.
Qed.

(** C4.  [extractMetrics] is a total function.  Without a payload, and with
    a payload whose three lists are empty, every canonical field has its
    Unknown / 0.0 default.  Otherwise the first non-empty list in the
    order 3.1, 3.0, 2.0 wins and the result is what the mapping tables of
    the specification give for its first entry: scores copied, every
    vocabulary mapped to its canonical value, the 2.0 severity banded from
    the base score.  In particular, when both the 3.1 and the 2.0 list are
    non-empty, every output field is the one the first 3.1 entry stands
    for. *)
Theorem extractMetrics_precedence :
  allDefaults (extractMetrics None)
  /\ (forall m,
        dto.Metrics.CvssMetricV31 m = [] ->
        dto.Metrics.CvssMetricV30 m = [] ->
        dto.Metrics.CvssMetricV2 m = [] ->
        allDefaults (extractMetrics (Some m)))
  /\ (forall m e rest,
        dto.Metrics.CvssMetricV31 m = e :: rest ->
        extractMetrics (Some m) = SpecTables.canonicalV31 e)
  /\ (forall m e rest,
        dto.Metrics.CvssMetricV31 m = [] ->
        dto.Metrics.CvssMetricV30 m = e :: rest ->
        extractMetrics (Some m) = SpecTables.canonicalV30 e)
  /\ (forall m e rest,
        dto.Metrics.CvssMetricV31 m = [] ->
        dto.Metrics.CvssMetricV30 m = [] ->
        dto.Metrics.CvssMetricV2 m = e :: rest ->
        extractMetrics (Some m) = SpecTables.canonicalV2 MapCVSS e)
  /\ (forall m e rest e2 rest2,
        dto.Metrics.CvssMetricV31 m = e :: rest ->
        dto.Metrics.CvssMetricV2 m = e2 :: rest2 ->
        extractMetrics (Some m) = SpecTables.canonicalV31 e).
Proof.
  split; [apply extractDefaults_allDefaults|].
  split.
  { intros m H31 H30 H2. unfold extractMetrics. rewrite H31, H30, H2.
    apply extractDefaults_allDefaults. }
  split; [exact extractMetrics_first_V31|].
  split; [exact extractMetrics_first_V30|].
  split; [exact extractMetrics_first_V2|].
  intros m e rest e2 rest2 H31 _.
  exact (extractMetrics_first_V31 m e rest H31).
Qed.

(** C10.  A payload whose 3.1 and 3.0 lists are empty and whose 2.0 list is
    not leaves privileges-required at Unknown, whatever the 2.0 entry holds. *)
Theorem extractMetrics_V2_privileges_unknown (m : dto.Metrics.t)
        (e : dto.CvssMetricV2.t) (rest : list dto.CvssMetricV2.t) :
  dto.Metrics.CvssMetricV31 m = [] ->
  dto.Metrics.CvssMetricV30 m = [] ->
  dto.Metrics.CvssMetricV2 m = e :: rest ->
  privilegesRequired (extractMetrics (Some m)) = enums.PrivilegesRequiredUnknown.
Proof.
  intros H31 H30 H2. unfold extractMetrics. rewrite H31, H30, H2. reflexivity.
Qed.

End ExtractorProperties.

Lemma extractMetrics_precedence_witness :
  @extractMetrics refScoring (Some Fixtures.metricsV31AndV2)
  = {| baseCVSSScore := 7.5%float;
       baseSeverity := enums.SeverityTypeHigh;
       impactScore := 0x1.799999999999ap+2%float;
       access := enums.AccessTypeNetwork;
       complexity := enums.ComplexityTypeLow;
       privilegesRequired := enums.PrivilegesRequiredNone;
       integrityImpact := enums.ImpactTypeHigh;
       availabilityImpact := enums.ImpactTypeNone;
       exploitability :=
         {| tools.Exploit.Score := 0x1.f333333333333p+1%float;
            tools.Exploit.Exploitability := enums.ExploitabilityTypeFunctional |} |}.
Proof.
  pose proof (@extractMetrics_precedence refScoring) as (_ & _ & _ & _ & _ & H).
  specialize (H Fixtures.metricsV31AndV2 Fixtures.metricV31 [] Fixtures.metricV2 []
                eq_refl eq_refl).
  rewrite H. reflexivity.
Defined.

Lemma extractMetrics_V2_privileges_unknown_witness :
  privilegesRequired (@extractMetrics refScoring (Some Fixtures.metricsV2Only))
  = enums.PrivilegesRequiredUnknown.
Proof.
  apply (@extractMetrics_V2_privileges_unknown refScoring Fixtures.metricsV2Only
           Fixtures.metricV2 [] eq_refl eq_refl eq_refl).
Defined.

(** ** Likelihood *)

Section LikelihoodProperties.
Context {clock : Clock} {scoring : Scoring}.

(** C8.  [calculateLikelihoodSimple] is a total function of the access
    vector and the complexity of the record and follows the table:
    (Network, Low) gives VeryHigh; Network with any other complexity gives
    High; AdjacentNetwork gives Medium; Local gives Low; Unknown gives
    Unknown; any other access value (Physical) gives Low. *)
Theorem calculateLikelihoodSimple_table (vuln : tools.Vulnerability.t) :
  let a := tools.Vulnerability.Access vuln in
  let c := tools.Vulnerability.Complexity vuln in
  (a = enums.AccessTypeNetwork -> c = enums.ComplexityTypeLow ->
   calculateLikelihoodSimple vuln = enums.LikelyhoodTypeVeryHigh)
  /\ (a = enums.AccessTypeNetwork -> c <> enums.ComplexityTypeLow ->
      calculateLikelihoodSimple vuln = enums.LikelyhoodTypeHigh)
  /\ (a = enums.AccessTypeAdjacentNetwork ->
      calculateLikelihoodSimple vuln = enums.LikelyhoodTypeMedium)
  /\ (a = enums.AccessTypeLocal ->
      calculateLikelihoodSimple vuln = enums.LikelyhoodTypeLow)
  /\ (a = enums.AccessTypeUnknown ->
      calculateLikelihoodSimple vuln = enums.LikelyhoodTypeUnknown)
  /\ (a <> enums.AccessTypeNetwork -> a <> enums.AccessTypeAdjacentNetwork ->
      a <> enums.AccessTypeLocal -> a <> enums.AccessTypeUnknown ->
      calculateLikelihoodSimple vuln = enums.LikelyhoodTypeLow)
  /\ (forall vuln',
        tools.Vulnerability.Access vuln' = a ->
        tools.Vulnerability.Complexity vuln' = c ->
        calculateLikelihoodSimple vuln' = calculateLikelihoodSimple vuln).
Proof.
  cbv zeta. unfold calculateLikelihoodSimple.
  repeat split.
  - intros -> ->. reflexivity.
  - intros -> Hc. destruct (tools.Vulnerability.Complexity vuln); congruence.
  - intros ->. reflexivity.
  - intros ->. reflexivity.
  - intros ->. reflexivity.
  - intros H1 H2 H3 H4. destruct (tools.Vulnerability.Access vuln); congruence.
  - intros vuln' -> ->. reflexivity.
Qed.

End LikelihoodProperties.

Lemma calculateLikelihoodSimple_table_witness :
  @calculateLikelihoodSimple refClock refScoring
    (tools.Vulnerability.set_Access enums.AccesTypePhysical Fixtures.emptyVulnerability)
  = enums.LikelyhoodTypeLow
  /\ @calculateLikelihoodSimple refClock refScoring Fixtures.emptyVulnerability
     = enums.LikelyhoodTypeUnknown.
Proof.
  split.
  - pose proof (@calculateLikelihoodSimple_table refClock refScoring
                  (tools.Vulnerability.set_Access enums.AccesTypePhysical
                     Fixtures.emptyVulnerability)) as (_ & _ & _ & _ & _ & H & _).
    apply H; discriminate.
  - pose proof (@calculateLikelihoodSimple_table refClock refScoring
                  Fixtures.emptyVulnerability) as (_ & _ & _ & _ & H & _).
    apply H. reflexivity.
Defined.

(** ** Vendor comments *)

Section VendorCommentProperties.
Context {clock : Clock}.

(** The loop appends to what it has accumulated and never drops it. *)
Lemma parseVendorComments_loop (nvdComments : list dto.VendorComment.t)
      (acc : list tools.VendorComment.t) :
  exists out,
    fold_left parseVendorComment_step nvdComments (Some acc) = Some (acc ++ out)
    /\ Forall2 converts (survivors nvdComments) out.
Proof.
  revert acc. induction nvdComments as [|c rest IH]; intros acc.
  - exists []. rewrite app_nil_r. split; [reflexivity|constructor].
  - cbn [fold_left survivors filter].
    unfold parseVendorComment_step at 2, parseNvdVendorCommentDateTime, parses.
    destruct (time_Parse "2006-01-02T15:04:05" (dto.VendorComment.LastModified c))
      as [t|msg] eqn:Hparse.
    + destruct (IH (acc ++ [ {| tools.VendorComment.Organization :=
                                  dto.VendorComment.Organization c;
                                tools.VendorComment.Comment := dto.VendorComment.Comment c;
                                tools.VendorComment.LastModified := t |} ]))
        as (out & Hfold & Hconv).
      eexists (_ :: out). split.
      * unfold slice_append, elems. rewrite Hfold, <- app_assoc. reflexivity.
      * constructor; [|exact Hconv]. repeat split. exact Hparse.
    + destruct (IH acc) as (out & Hfold & Hconv).
      exists out. split; assumption.
Qed.

(** C9, as the code has it.  [parseVendorComments] always returns an
    allocated slice.  Its entries are, in source order, the conversions of
    exactly those source comments whose timestamp [time.Parse] accepts
    under the layout [2006-01-02T15:04:05] (which is more than the strict
    pattern YYYY-MM-DDTHH:MM:SS): organization and comment copied, the
    parsed time attached; the comments [time.Parse] refuses are dropped.
    An empty input gives the empty slice, not nil. *)
Theorem parseVendorComments_survivors (nvdComments : list dto.VendorComment.t) :
  (exists out,
     parseVendorComments nvdComments = Some out
     /\ Forall2 converts (survivors nvdComments) out)
  /\ parseVendorComments [] = Some [].
Proof.
  split; [|reflexivity].
  destruct (parseVendorComments_loop nvdComments []) as (out & Hfold & Hconv).
  exists out. split; [exact Hfold|exact Hconv].
Qed.

End VendorCommentProperties.

(** C9, as stated, fails: neither timestamp of these two comments has the
    strict pattern YYYY-MM-DDTHH:MM:SS, so the sublist of entries that parse
    under it is empty, yet [parseVendorComments] keeps both, with the
    fraction and the one-digit hour read as [time.Parse] reads them. *)
Lemma parseVendorComments_keeps_lenient_timestamps :
  strictSurvivors Fixtures.lenientComments = []
  /\ @parseVendorComments refClock Fixtures.lenientComments
     = Some [ {| tools.VendorComment.Organization := "Red Hat";
                 tools.VendorComment.Comment := "Not vulnerable.";
                 tools.VendorComment.LastModified :=
                   {| RefClock.year := 2021; RefClock.month := 1; RefClock.day := 1;
                      RefClock.hour := 0; RefClock.minute := 0; RefClock.second := 0;
                      RefClock.nanosecond := 250000000 |} |};
              {| tools.VendorComment.Organization := "Blue Hat";
                 tools.VendorComment.Comment := "Fixed.";
                 tools.VendorComment.LastModified :=
                   {| RefClock.year := 2008; RefClock.month := 12; RefClock.day := 18;
                      RefClock.hour := 7; RefClock.minute := 30; RefClock.second := 0;
                      RefClock.nanosecond := 0 |} |} ].
Proof. split; reflexivity. Qed.

(** The second case of [Test_parseVendorComments]: one well-formed and one
    malformed timestamp. *)
Example parseVendorComments_mixed :
  @parseVendorComments refClock Fixtures.mixedComments
  = Some [ {| tools.VendorComment.Organization := "Red Hat";
              tools.VendorComment.Comment := "Not vulnerable.";
              tools.VendorComment.LastModified :=
                {| RefClock.year := 2008; RefClock.month := 12; RefClock.day := 18;
                   RefClock.hour := 0; RefClock.minute := 0; RefClock.second := 0;
                   RefClock.nanosecond := 0 |} |} ].
Proof. reflexivity. Qed.

(** ** Enrichment orchestrator *)

Section EnrichProperties.
Context {clock : Clock} {scoring : Scoring}.

(** C1, as the code has it.  When [enrichVulnerabilityWithNvdData] returns
    an error, either the target is nil and there is nothing to change, or a
    required timestamp did not parse: then identifier, type, description,
    references and the CVSS-derived fields already hold the source's
    values, last-updated, likelihood, risk score and vendor comments are as
    they were, and the published time is as it was unless it is the
    last-modified timestamp that failed, in which case it holds the parsed
    publication time. *)
Theorem enrich_failure_leaves_partial_update
        (vuln : option tools.Vulnerability.t) (nvdVuln : dto.Vulnerability.t)
        (after : option tools.Vulnerability.t) (e : error) :
  enrichVulnerabilityWithNvdData vuln nvdVuln = (after, Some e) ->
  (vuln = None /\ after = None)
  \/ exists v v',
       vuln = Some v /\ after = Some v'
       /\ overwritten nvdVuln v'
       /\ untouched_tail v v'
       /\ ((exists cause,
              parseNvdDateTime (dto.CveDetail.Published (dto.Vulnerability.Cve nvdVuln))
              = Fail cause
              /\ tools.Vulnerability.Published v' = tools.Vulnerability.Published v)
           \/ (exists cause,
                 parseNvdDateTime (dto.CveDetail.Published (dto.Vulnerability.Cve nvdVuln))
                 = Ok (tools.Vulnerability.Published v')
                 /\ parseNvdDateTime
                      (dto.CveDetail.LastModified (dto.Vulnerability.Cve nvdVuln))
                    = Fail cause)).
Proof.
  unfold enrichVulnerabilityWithNvdData.
  destruct vuln as [v|]; [|intros [= <- _]; left; split; reflexivity].
  cbv zeta.
  destruct (parseNvdDateTime (dto.CveDetail.Published (dto.Vulnerability.Cve nvdVuln)))
    as [published|cause] eqn:Hpub.
  - destruct (parseNvdDateTime (dto.CveDetail.LastModified (dto.Vulnerability.Cve nvdVuln)))
      as [updated|cause] eqn:Hmod; [discriminate|].
    intros [= <- _]. right. eexists _, _.
    split; [reflexivity|]. split; [reflexivity|].
    split; [repeat split|]. split; [repeat split|].
    right. exists cause. split; reflexivity.
  - intros [= <- _]. right. eexists _, _.
    split; [reflexivity|]. split; [reflexivity|].
    split; [repeat split|]. split; [repeat split|].
    left. exists cause. split; reflexivity.
Qed.

End EnrichProperties.

(** C1, as stated, fails: with a publication date that lacks the mandatory
    fractional seconds the call returns an error, and the target no longer
    is the record it was. *)
Lemma enrich_failure_mutates_target :
  snd (@enrichVulnerabilityWithNvdData refClock refScoring
         (Some Fixtures.emptyVulnerability) Fixtures.mockNvdVulnerabilityBadDate)
  <> None
  /\ fst (@enrichVulnerabilityWithNvdData refClock refScoring
            (Some Fixtures.emptyVulnerability) Fixtures.mockNvdVulnerabilityBadDate)
     <> Some Fixtures.emptyVulnerability.
Proof.
  split; intros H.
  - apply (f_equal (fun err : option error =>
                      match err with Some _ => true | None => false end)) in H.
    vm_compute in H. discriminate.
  - apply (f_equal (fun after : option tools.Vulnerability.t =>
                      match after with
                      | Some v => String.eqb (tools.Vulnerability.ID v) "CVE-TEST-V31"
                      | None => false
                      end)) in H.
    vm_compute in H. discriminate.
Qed.

Lemma enrich_failure_leaves_partial_update_witness :
  exists v',
    fst (@enrichVulnerabilityWithNvdData refClock refScoring
           (Some Fixtures.emptyVulnerability) Fixtures.mockNvdVulnerabilityBadDate)
    = Some v'
    /\ tools.Vulnerability.ID v' = "CVE-TEST-V31"
    /\ tools.Vulnerability.VendorComments v' = None.
Proof.
  set (run := @enrichVulnerabilityWithNvdData refClock refScoring
                (Some Fixtures.emptyVulnerability) Fixtures.mockNvdVulnerabilityBadDate).
  assert (Herr : exists e, snd run = Some e)
    by (vm_compute; eexists; reflexivity).
  destruct Herr as [e Herr].
  assert (Hrun : run = (fst run, Some e))
    by (rewrite <- Herr; apply surjective_pairing).
  destruct (@enrich_failure_leaves_partial_update refClock refScoring
              (Some Fixtures.emptyVulnerability) Fixtures.mockNvdVulnerabilityBadDate
              (fst run) e Hrun)
    as [[Hnil _]|(v & v' & Hv & Hafter & Hover & Htail & _)]; [discriminate|].
  injection Hv as <-.
  exists v'. split; [exact Hafter|].
  destruct Hover as (HID & _). destruct Htail as (_ & _ & _ & Hvc).
  split; [exact HID|exact Hvc].
Defined.

(* ===================================================================== *)
(** * Further properties of the service *)
(* ===================================================================== *)

(** ** Normaliser and validator together *)

(** Joining the tokens of a split gives the string back. *)
Lemma strings_Join_Split (sep : ascii) (s : string) :
  strings_Join (strings_Split s sep) (String sep EmptyString) = s.
Proof.
  induction s as [|c s IH]; [reflexivity|].
  cbn [strings_Split].
  destruct (Ascii.eqb_spec c sep) as [->|Hc].
  - pose proof (strings_Split_nonempty sep s) as Hne.
    destruct (strings_Split s sep) as [|tok toks]; [congruence|].
    change (strings_Join (EmptyString :: tok :: toks) (String sep EmptyString))
      with (String sep (strings_Join (tok :: toks) (String sep EmptyString))).
    rewrite IH. reflexivity.
  - pose proof (strings_Split_nonempty sep s) as Hne.
    destruct (strings_Split s sep) as [|tok toks]; [congruence|].
    destruct toks as [|tok' toks].
    + simpl in IH. simpl. rewrite IH. reflexivity.
    + change (strings_Join (String c tok :: tok' :: toks) (String sep EmptyString))
        with (String c (strings_Join (tok :: tok' :: toks) (String sep EmptyString))).
      rewrite IH. reflexivity.
Qed.

(** What a successful call of [standardizeCPE] was given and returns. *)
Lemma standardizeCPE_success (cpe out : string) :
  standardizeCPE cpe = (out, None) ->
  strings_HasPrefix cpe "cpe:/" = true
  /\ 4 <= List.length (strings_Split (strings_TrimPrefix cpe "cpe:/") colon)
  /\ out = ("cpe:2.3:"
            ++ strings_Join
                 (strictFields (strings_Split (strings_TrimPrefix cpe "cpe:/") colon)) ":")%string.
Proof.
  intros H.
  destruct (strings_HasPrefix cpe "cpe:/") eqn:Hprefix.
  - destruct (Nat.ltb_spec (List.length (strings_Split (strings_TrimPrefix cpe "cpe:/") colon)) 4)
      as [Hshort|Hlong].
    + unfold standardizeCPE in H. rewrite Hprefix in H. cbn [negb] in H.
      destruct (Nat.ltb_spec
                  (List.length (strings_Split (strings_TrimPrefix cpe "cpe:/") colon)) 4);
        [discriminate|lia].
    + rewrite (standardizeCPE_ok cpe Hprefix Hlong) in H.
      injection H as <-. repeat split. exact Hlong.
  - unfold standardizeCPE in H. rewrite Hprefix in H. discriminate.
Qed.

Lemma strictFields_tokens (s : string) :
  strings_Split (strings_Join (strictFields (strings_Split s colon)) ":") colon
  = strictFields (strings_Split s colon).
Proof.
  apply strings_Split_Join.
  - intros Hnil. pose proof (strictFields_length (strings_Split s colon)) as L.
    rewrite Hnil in L. discriminate.
  - apply strictFields_clean. apply strings_Split_tokens_clean.
Qed.

(** X1.  The output of a successful [standardizeCPE] always splits into 13
    tokens, ["cpe"], ["2.3"] and the 11 strict fields, so [isValidCPE] can
    reject it for one reason only: it accepts the output exactly when none
    of the first four strict fields (part, vendor, product, version) is the
    wildcard. *)
Theorem standardizeCPE_then_isValidCPE (cpe out : string) :
  standardizeCPE cpe = (out, None) ->
  let fields := strictFields (strings_Split (strings_TrimPrefix cpe "cpe:/") colon) in
  strings_Split out colon = "cpe" :: "2.3" :: fields
  /\ List.length (strings_Split out colon) = 13
  /\ (isValidCPE out = None <-> forall i, i < 4 -> nth i fields EmptyString <> "*").
Proof.
  intros H fields. apply standardizeCPE_success in H as (_ & _ & ->).
  fold fields.
  assert (Hsplit : strings_Split ("cpe:2.3:" ++ strings_Join fields ":") colon
                   = "cpe" :: "2.3" :: fields).
  { change ("cpe:2.3:" ++ strings_Join fields ":")%string
      with ("cpe" ++ String colon ("2.3" ++ String colon (strings_Join fields ":")))%string.
    rewrite strings_Split_app by reflexivity.
    rewrite strings_Split_app by reflexivity.
    unfold fields. rewrite strictFields_tokens. reflexivity. }
  split; [exact Hsplit|].
  split; [rewrite Hsplit; cbn [List.length]; unfold fields;
          rewrite strictFields_length; reflexivity|].
  rewrite isValidCPE_None. unfold wellFormedCPE. cbv zeta. rewrite Hsplit.
  cbn [List.length nth]. unfold fields at 1. rewrite strictFields_length.
  split.
  - intros (_ & _ & _ & Hcore) i Hi.
    specialize (Hcore (S (S i))). cbn [nth] in Hcore. apply Hcore. lia.
  - intros Hcore. repeat split; try reflexivity.
    intros i Hi. destruct i as [|[|i]]; [lia|lia|].
    cbn [nth]. apply Hcore. lia.
Qed.

Lemma standardizeCPE_then_isValidCPE_witness :
  isValidCPE "cpe:2.3:o:microsoft:windows_10:1607:*:*:*:*:*:*:*" = None.
Proof.
  pose proof (standardizeCPE_then_isValidCPE "cpe:/o:microsoft:windows_10:1607"
                "cpe:2.3:o:microsoft:windows_10:1607:*:*:*:*:*:*:*" eq_refl)
    as (_ & _ & Hiff).
  apply Hiff. intros i Hi.
  assert (i = 0 \/ i = 1 \/ i = 2 \/ i = 3) as [ -> | [ -> | [ -> | -> ] ] ] by lia;
    vm_compute; discriminate.
Defined.

(** X2.  [standardizeCPE] is not idempotent: it rejects its own output, and
    more generally every string [isValidCPE] accepts, with the error of the
    missing legacy prefix. *)
Theorem standardizeCPE_rejects_strict (s : string) :
  (exists cpe, standardizeCPE cpe = (s, None)) \/ isValidCPE s = None ->
  standardizeCPE s
  = (EmptyString, Some (Errorf "CPE does not start with 'cpe:/': %s" [ArgString s])).
Proof.
  intros H.
  assert (Hprefix : strings_HasPrefix s "cpe:/" = false).
  { destruct H as [[cpe H]|H].
    - apply standardizeCPE_success in H as (_ & _ & ->). reflexivity.
    - apply isValidCPE_None in H. destruct H as (Hlen & H0 & H1 & _).
      rewrite <- (strings_Join_Split colon s).
      destruct (strings_Split s colon) as [|t0 [|t1 [|t2 rest]]]; try discriminate.
      cbn [nth] in H0, H1. subst t0 t1. reflexivity. }
  unfold standardizeCPE. rewrite Hprefix. reflexivity.
Qed.

Lemma standardizeCPE_rejects_strict_witness :
  standardizeCPE "cpe:2.3:o:microsoft:windows_10:1607:*:*:*:*:*:*:*"
  = (EmptyString,
     Some (Errorf "CPE does not start with 'cpe:/': %s"
                  [ArgString "cpe:2.3:o:microsoft:windows_10:1607:*:*:*:*:*:*:*"])).
Proof.
  apply (standardizeCPE_rejects_strict
           "cpe:2.3:o:microsoft:windows_10:1607:*:*:*:*:*:*:*").
  left. exists "cpe:/o:microsoft:windows_10:1607". reflexivity.
Defined.

(** ** Every run of the fetcher *)

Section FetcherRuns.
Context {W : HttpWorld}.
Variables (cpe baseNvdAPIURL : string) (req : Request).
Hypothesis request_built : http_NewRequest "GET" (buildURL cpe baseNvdAPIURL) = Success req.

Local Abbreviation apiURL := (buildURL cpe baseNvdAPIURL).

(** An attempt is exactly one round trip, and it either meets a 503 and
    returns the sentinel, or returns a terminal result. *)
Lemma attemptFetch_outcome (tr : trace) :
  exists r,
    attemptFetch apiURL tr = (r, tr ++ [EvHTTP req])
    /\ ((r = Fail unavailable /\ answers_503 req (http_calls tr))
        \/ (terminal r /\ ~ answers_503 req (http_calls tr))).
Proof.
  unfold attemptFetch. rewrite request_built. unfold bind, do_request, ret, answers_503.
  destruct (client_Do (http_calls tr) req) as [resp|msg] eqn:Hdo.
  - destruct (Z.eqb_spec (StatusCode resp) http_StatusServiceUnavailable) as [H503|H503].
    + eexists. split; [reflexivity|]. left. split; [reflexivity|].
      exists resp. split; [reflexivity|exact H503].
    + assert (Hnot : ~ (exists resp0, Success resp = Success resp0
                                      /\ StatusCode resp0 = http_StatusServiceUnavailable)).
      { intros (resp0 & [= <-] & Hs). contradiction. }
      destruct (negb (StatusCode resp =? http_StatusOK)%Z).
      * eexists. split; [reflexivity|]. right. split; [reflexivity|exact Hnot].
      * destruct (json_Decode (Body resp)).
        -- eexists. split; [reflexivity|]. right. split; [exact I|exact Hnot].
        -- eexists. split; [reflexivity|]. right. split; [reflexivity|exact Hnot].
  - eexists. split; [reflexivity|]. right. split; [reflexivity|].
    intros (resp0 & Hresp & _). discriminate.
Qed.

(** The loop stops at the first attempt that does not meet a 503, and runs
    out after [iterations] attempts otherwise. *)
Lemma retryLoop_outcome (iterations : nat) (attempt : Z) (err : option error) (tr : trace) :
  (0 < iterations
   /\ (forall n, n < iterations -> answers_503 req (http_calls tr + n))
   /\ retryLoop cpe apiURL iterations attempt err tr
      = (Fail exhausted, tr ++ backoff_trace req iterations attempt))
  \/ (iterations = 0
      /\ snd (retryLoop cpe apiURL iterations attempt err tr) = tr)
  \/ (exists k r,
        k < iterations
        /\ (forall n, n < k -> answers_503 req (http_calls tr + n))
        /\ ~ answers_503 req (http_calls tr + k)
        /\ terminal r
        /\ retryLoop cpe apiURL iterations attempt err tr
           = (r, tr ++ backoff_trace req k attempt ++ [EvHTTP req])).
Proof.
  revert attempt err tr. induction iterations as [|iterations IH]; intros attempt err tr.
  - right. left. split; reflexivity.
  - destruct (attemptFetch_outcome tr) as (r & Hattempt & [[-> H503]|[Hterm Hnot]]).
    + rewrite (retryLoop_503 cpe baseNvdAPIURL req request_built iterations attempt err tr H503).
      set (tr1 := tr ++ [EvHTTP req; EvSleep (calculateRetryDelay attempt)]).
      assert (Hcalls : http_calls tr1 = S (http_calls tr)).
      { unfold tr1. rewrite http_calls_app. cbn. lia. }
      destruct (IH (attempt + 1)%Z (Some unavailable) tr1)
        as [(Hpos & Hall & Hrun)|[(-> & _)|(k & r & Hk & Hall & Hnot & Hterm & Hrun)]].
      * left. split; [lia|]. split.
        -- intros n Hn. destruct n as [|n]; [rewrite Nat.add_0_r; exact H503|].
           specialize (Hall n). rewrite Hcalls in Hall.
           replace (http_calls tr + S n) with (S (http_calls tr) + n) by lia.
           apply Hall. lia.
        -- rewrite Hrun. unfold tr1. rewrite <- app_assoc. reflexivity.
      * left. split; [lia|]. split.
        -- intros n Hn. replace n with 0 by lia. rewrite Nat.add_0_r. exact H503.
        -- reflexivity.
      * right. right. exists (S k), r. split; [lia|]. split.
        -- intros n Hn. destruct n as [|n]; [rewrite Nat.add_0_r; exact H503|].
           specialize (Hall n). rewrite Hcalls in Hall.
           replace (http_calls tr + S n) with (S (http_calls tr) + n) by lia.
           apply Hall. lia.
        -- split.
           { rewrite Hcalls in Hnot.
             replace (http_calls tr + S k) with (S (http_calls tr) + k) by lia. exact Hnot. }
           split; [exact Hterm|].
           rewrite Hrun. unfold tr1. rewrite <- app_assoc. reflexivity.
    + right. right. exists 0, match r with
                               | Ok body => Ok body
                               | Fail e =>
                                   Fail (ErrorfW "non-retriable error for CPE %s: %w"
                                                 [ArgString cpe] e)
                               end.
      split; [lia|]. split; [intros n Hn; lia|]. split.
      { rewrite Nat.add_0_r. exact Hnot. }
      split.
      { destruct r as [body|e]; [exact I|exact Hterm]. }
      cbn [retryLoop backoff_trace app]. unfold bind at 1. rewrite Hattempt.
      destruct r as [body|e]; [reflexivity|].
      cbn [terminal] in Hterm. unfold shouldRetry. rewrite Hterm. reflexivity.
Qed.

End FetcherRuns.

Lemma sleeps_backoff_delays (req : Request) (k : nat) :
  k <= 4 -> sleeps (backoff_trace req k 0%Z) = firstn k backoff_delays.
Proof.
  intros Hk.
  destruct k as [|[|[|[|[|k]]]]]; [reflexivity|reflexivity|reflexivity|reflexivity|reflexivity|lia].
Qed.

Lemma sleeps_app (tr tr' : trace) : sleeps (tr ++ tr') = sleeps tr ++ sleeps tr'.
Proof. unfold sleeps. apply flat_map_app. Qed.

(** X3.  Whatever the server does, a run of [fetchNvdDataByCPE] whose
    request is well-formed is [k] failed attempts, each followed by its
    sleep, for some [k] of at most [maxRetries + 1] = 4, and then either
    nothing more ([k] = 4, the retries are exhausted) or one last round
    trip with a terminal result.  Hence at most 4 round trips, all with the
    same request, and the sleeps are the first [k] of 6, 12, 15 and 15
    seconds. *)
Theorem fetch_run_shape {W : HttpWorld} (cpe baseNvdAPIURL : string) (req : Request) :
  http_NewRequest "GET" (buildURL cpe baseNvdAPIURL) = Success req ->
  exists k,
    k <= 4
    /\ ((k = 4
         /\ fetchNvdDataByCPE cpe baseNvdAPIURL []
            = (Fail exhausted, backoff_trace req 4 0%Z))
        \/ (k < 4
            /\ exists r,
                 terminal r
                 /\ fetchNvdDataByCPE cpe baseNvdAPIURL []
                    = (r, backoff_trace req k 0%Z ++ [EvHTTP req])))
    /\ sleeps (snd (fetchNvdDataByCPE cpe baseNvdAPIURL [])) = firstn k backoff_delays
    /\ http_calls (snd (fetchNvdDataByCPE cpe baseNvdAPIURL [])) <= 4.
Proof.
  intros Hreq. unfold fetchNvdDataByCPE.
  change (Z.to_nat (maxRetries + 1)) with 4.
  destruct (retryLoop_outcome cpe baseNvdAPIURL req Hreq 4 0%Z None [])
    as [(_ & _ & Hrun)|[(Habs & _)|(k & r & Hk & _ & _ & Hterm & Hrun)]].
  - exists 4. rewrite Hrun. cbn [app snd]. split; [lia|]. split.
    + left. split; reflexivity.
    + split; [apply sleeps_backoff_delays; lia|]. rewrite http_calls_backoff. lia.
  - discriminate.
  - exists k. rewrite Hrun. cbn [app snd]. split; [lia|]. split.
    + right. split; [exact Hk|]. exists r. split; [exact Hterm|reflexivity].
    + split.
      * rewrite sleeps_app, sleeps_backoff_delays by lia. cbn. apply app_nil_r.
      * rewrite http_calls_app, http_calls_backoff. cbn. lia.
Qed.

(** X4.  When [fetchNvdDataByCPE] fails in a run whose request is
    well-formed, its error satisfies [errors.Is(err,
    ErrNVDServiceUnavailable)] exactly when each of the [maxRetries + 1]
    round trips answered 503; every other failure is a terminal cause. *)
Theorem fetch_unavailable_iff_all_503 {W : HttpWorld}
        (cpe baseNvdAPIURL : string) (req : Request) (e : error) (tr : trace) :
  http_NewRequest "GET" (buildURL cpe baseNvdAPIURL) = Success req ->
  fetchNvdDataByCPE cpe baseNvdAPIURL [] = (Fail e, tr) ->
  (errors_Is e ErrNVDServiceUnavailable = true
   <-> forall n, n <= Z.to_nat maxRetries -> answers_503 req n).
Proof.
  intros Hreq. unfold fetchNvdDataByCPE.
  change (Z.to_nat (maxRetries + 1)) with 4. change (Z.to_nat maxRetries) with 3.
  destruct (retryLoop_outcome cpe baseNvdAPIURL req Hreq 4 0%Z None [])
    as [(_ & Hall & Hrun)|[(Habs & _)|(k & r & Hk & _ & Hnot & Hterm & Hrun)]].
  - rewrite Hrun. intros [= <- _]. split; [|reflexivity].
    intros _ n Hn. apply (Hall n). lia.
  - discriminate.
  - rewrite Hrun. intros [= -> _]. cbn [terminal] in Hterm. split.
    + rewrite Hterm. discriminate.
    + intros Hall. exfalso. apply Hnot. apply Hall. change (http_calls []) with 0. lia.
Qed.

(** X5.  When the request cannot be built (a base URL that does not parse),
    [fetchNvdDataByCPE] fails without a round trip and without a sleep, and
    does not retry: the trace is left as it was. *)
Theorem fetch_without_request {W : HttpWorld}
        (cpe baseNvdAPIURL msg : string) (tr : trace) :
  http_NewRequest "GET" (buildURL cpe baseNvdAPIURL) = Failure msg ->
  fetchNvdDataByCPE cpe baseNvdAPIURL tr
  = (Fail (ErrorfW "non-retriable error for CPE %s: %w" [ArgString cpe]
             (ErrorfW "failed to create NVD API request: %w" [] (External msg))),
     tr).
Proof.
  intros Hreq. unfold fetchNvdDataByCPE.
  change (Z.to_nat (maxRetries + 1)) with 4. cbn [retryLoop].
  unfold bind at 1. unfold attemptFetch. rewrite Hreq. reflexivity.
Qed.

Lemma fetch_run_shape_witness :
  exists k,
    k <= 4
    /\ ((k = 4
         /\ @fetchNvdDataByCPE RefHttp.recovering RefHttp.testCPE RefHttp.testURL []
            = (Fail exhausted, backoff_trace RefHttp.testRequest 4 0%Z))
        \/ (k < 4
            /\ exists r,
                 terminal r
                 /\ @fetchNvdDataByCPE RefHttp.recovering RefHttp.testCPE RefHttp.testURL []
                    = (r, backoff_trace RefHttp.testRequest k 0%Z
                          ++ [EvHTTP RefHttp.testRequest])))
    /\ sleeps (snd (@fetchNvdDataByCPE RefHttp.recovering
                      RefHttp.testCPE RefHttp.testURL []))
       = firstn k backoff_delays
    /\ http_calls (snd (@fetchNvdDataByCPE RefHttp.recovering
                          RefHttp.testCPE RefHttp.testURL [])) <= 4.
Proof.
  assert (Hreq : @http_NewRequest RefHttp.recovering "GET"
                   (@buildURL RefHttp.recovering RefHttp.testCPE RefHttp.testURL)
                 = Success RefHttp.testRequest) by (vm_compute; reflexivity).
  exact (@fetch_run_shape RefHttp.recovering RefHttp.testCPE RefHttp.testURL
           RefHttp.testRequest Hreq).
Defined.

Lemma fetch_unavailable_iff_all_503_witness :
  errors_Is exhausted ErrNVDServiceUnavailable = true
  <-> forall n, n <= Z.to_nat maxRetries
                -> @answers_503 RefHttp.alwaysUnavailable RefHttp.testRequest n.
Proof.
  assert (Hreq : @http_NewRequest RefHttp.alwaysUnavailable "GET"
                   (@buildURL RefHttp.alwaysUnavailable RefHttp.testCPE RefHttp.testURL)
                 = Success RefHttp.testRequest) by (vm_compute; reflexivity).
  assert (Hrun : @fetchNvdDataByCPE RefHttp.alwaysUnavailable
                   RefHttp.testCPE RefHttp.testURL []
                 = (Fail exhausted, backoff_trace RefHttp.testRequest 4 0%Z))
    by (vm_compute; reflexivity).
  exact (@fetch_unavailable_iff_all_503 RefHttp.alwaysUnavailable RefHttp.testCPE
           RefHttp.testURL RefHttp.testRequest exhausted _ Hreq Hrun).
Defined.

Lemma fetch_without_request_witness :
  @fetchNvdDataByCPE RefHttp.strictClient RefHttp.testCPE RefHttp.malformedURL []
  = (Fail (ErrorfW "non-retriable error for CPE %s: %w" [ArgString RefHttp.testCPE]
             (ErrorfW "failed to create NVD API request: %w" []
                (External "net/url: invalid control character in URL"))),
     []).
Proof.
  assert (Hreq : @http_NewRequest RefHttp.strictClient "GET"
                   (@buildURL RefHttp.strictClient RefHttp.testCPE RefHttp.malformedURL)
                 = Failure "net/url: invalid control character in URL")
    by (vm_compute; reflexivity).
  exact (@fetch_without_request RefHttp.strictClient RefHttp.testCPE
           RefHttp.malformedURL _ [] Hreq).
Defined.

(** ** Descriptions and references *)

(** X6.  [getEnglishDescription] returns the text of the first description
    tagged ["en"], whatever precedes or follows it, and the empty string
    when no description carries that tag. *)
Theorem getEnglishDescription_first_match
        (before after : list dto.Description.t) (d : dto.Description.t) :
  no_english before ->
  (getEnglishDescription before = EmptyString)
  /\ (dto.Description.Lang d = "en" ->
      getEnglishDescription (before ++ d :: after) = dto.Description.Value d).
Proof.
  intros Hnone. induction Hnone as [|x before Hx Hnone [IH1 IH2]].
  - split; [reflexivity|]. intros Hen. cbn [app getEnglishDescription].
    rewrite Hen. reflexivity.
  - cbn [app getEnglishDescription].
    destruct (String.eqb_spec (dto.Description.Lang x) "en"); [contradiction|].
    split; assumption.
Qed.

Lemma getEnglishDescription_first_match_witness :
  getEnglishDescription
    ([ {| dto.Description.Lang := "es"; dto.Description.Value := "Desbordamiento" |} ]
     ++ {| dto.Description.Lang := "en"; dto.Description.Value := "Overflow" |}
     :: [ {| dto.Description.Lang := "en"; dto.Description.Value := "Second" |} ])
  = "Overflow".
Proof.
  apply (getEnglishDescription_first_match
           [ {| dto.Description.Lang := "es"; dto.Description.Value := "Desbordamiento" |} ]
           [ {| dto.Description.Lang := "en"; dto.Description.Value := "Second" |} ]
           {| dto.Description.Lang := "en"; dto.Description.Value := "Overflow" |}).
  - constructor; [discriminate|constructor].
  - reflexivity.
Defined.

Lemma getReferences_loop (vulnReferences : list dto.Reference.t) (refs : slice string) :
  vulnReferences <> [] ->
  fold_left (fun refs ref => slice_append refs (dto.Reference.URL ref)) vulnReferences refs
  = Some (elems refs ++ map dto.Reference.URL vulnReferences).
Proof.
  revert refs. induction vulnReferences as [|ref rest IH]; intros refs Hne; [congruence|].
  cbn [fold_left map]. destruct rest as [|ref' rest].
  - reflexivity.
  - rewrite IH by discriminate. unfold slice_append at 1. cbn [elems].
    rewrite <- app_assoc. reflexivity.
Qed.

(** X7.  [getReferences] copies the URLs in order, one per reference and
    duplicates included; it returns the nil slice exactly when there is no
    reference. *)
Theorem getReferences_copies (vulnReferences : list dto.Reference.t) :
  elems (getReferences vulnReferences) = map dto.Reference.URL vulnReferences
  /\ (getReferences vulnReferences = None <-> vulnReferences = []).
Proof.
  unfold getReferences. destruct vulnReferences as [|ref rest].
  - split; [reflexivity|]. split; reflexivity.
  - rewrite getReferences_loop by discriminate. cbn [elems app].
    split; [reflexivity|]. split; discriminate.
Qed.

(** ** Vendor comments, piecewise *)

Section VendorCommentPieces.
Context {clock : Clock}.

(** The loop only ever appends to what it was given. *)
Lemma parseVendorComments_from (nvdComments : list dto.VendorComment.t)
      (acc : list tools.VendorComment.t) :
  fold_left parseVendorComment_step nvdComments (Some acc)
  = Some (acc ++ elems (parseVendorComments nvdComments)).
Proof.
  unfold parseVendorComments, make_slice.
  revert acc. induction nvdComments as [|c rest IH]; intros acc.
  - cbn. rewrite app_nil_r. reflexivity.
  - cbn [fold_left]. unfold parseVendorComment_step at 2 4.
    destruct (parseNvdVendorCommentDateTime (dto.VendorComment.LastModified c)) as [t|e].
    + unfold slice_append, elems at 1 3. cbn [app].
      rewrite (IH (acc ++ _)), (IH [_]). cbn [elems].
      rewrite <- app_assoc. reflexivity.
    + apply IH.
Qed.

(** X8.  [parseVendorComments] works comment by comment: the result for a
    concatenation is the concatenation of the results, and the result is
    never longer than the input, with the same length exactly when every
    timestamp parses. *)
Theorem parseVendorComments_piecewise (first second : list dto.VendorComment.t) :
  elems (parseVendorComments (first ++ second))
  = elems (parseVendorComments first) ++ elems (parseVendorComments second)
  /\ List.length (elems (parseVendorComments first)) <= List.length first
  /\ (List.length (elems (parseVendorComments first)) = List.length first
      <-> Forall (fun c => parses (dto.VendorComment.LastModified c) = true) first).
Proof.
  split.
  - unfold parseVendorComments at 1, make_slice. rewrite fold_left_app.
    fold (@make_slice tools.VendorComment.t (List.length first)).
    fold (parseVendorComments first).
    destruct (parseVendorComments_loop first []) as (out & Hout & _).
    cbn [app] in Hout. fold (@make_slice tools.VendorComment.t (List.length first)) in Hout.
    fold (parseVendorComments first) in Hout.
    rewrite Hout. rewrite parseVendorComments_from. reflexivity.
  - destruct (parseVendorComments_loop first []) as (out & Hout & Hconv).
    cbn [app] in Hout. fold (@make_slice tools.VendorComment.t (List.length first)) in Hout.
    fold (parseVendorComments first) in Hout.
    rewrite Hout. cbn [elems]. apply Forall2_length in Hconv. rewrite <- Hconv.
    unfold survivors. split; [apply filter_length_le|].
    split.
    + intros Hlen. apply filter_length_forallb in Hlen.
      apply Forall_forall. intros c Hc.
      apply (proj1 (forallb_forall _ _) Hlen c Hc).
    + intros Hall. f_equal. apply forallb_filter_id.
      apply forallb_forall. intros c Hc. rewrite Forall_forall in Hall. apply Hall. exact Hc.
Qed.

End VendorCommentPieces.

(** ** The three schema versions *)

Section ExtractorVersions.
Context {scoring : Scoring}.

(** X9.  The 3.0 branch of [extractMetrics] is the 3.1 branch: a payload
    resolved by a 3.0 entry gives what the same values give as a 3.1
    entry. *)
Theorem extractMetrics_V30_as_V31 (m : dto.Metrics.t) (e : dto.CvssMetricV30.t)
        (rest : list dto.CvssMetricV30.t) :
  dto.Metrics.CvssMetricV31 m = [] ->
  dto.Metrics.CvssMetricV30 m = e :: rest ->
  extractMetrics (Some m) = extractMetrics (Some (onlyV31 (v30_as_v31 e))).
Proof.
  intros H31 H30. unfold extractMetrics. rewrite H31, H30. reflexivity.
Qed.

(** X10.  What a schema version cannot produce: a payload resolved by a
    3.1 or 3.0 entry never has Medium complexity, and a payload without
    3.1 and 3.0 entries never has Physical access. *)
Theorem extractMetrics_version_ranges (m : dto.Metrics.t) :
  (dto.Metrics.CvssMetricV31 m <> [] \/ dto.Metrics.CvssMetricV30 m <> [] ->
   complexity (extractMetrics (Some m)) <> enums.ComplexityTypeMedium)
  /\ (dto.Metrics.CvssMetricV31 m = [] -> dto.Metrics.CvssMetricV30 m = [] ->
      access (extractMetrics (Some m)) <> enums.AccesTypePhysical).
Proof.
  unfold extractMetrics. split.
  - intros H.
    destruct (dto.Metrics.CvssMetricV31 m) as [|e31 r31].
    + destruct (dto.Metrics.CvssMetricV30 m) as [|e30 r30]; [destruct H; congruence|].
      cbn [complexity].
      destruct (dto.CvssDataV30.AttackComplexity (dto.CvssMetricV30.CvssData e30));
        discriminate.
    + cbn [complexity].
      destruct (dto.CvssDataV31.AttackComplexity (dto.CvssMetricV31.CvssData e31));
        discriminate.
  - intros -> ->.
    destruct (dto.Metrics.CvssMetricV2 m) as [|e2 r2]; [discriminate|].
    cbn [access].
    destruct (dto.CvssDataV2.AccessVector (dto.CvssMetricV2.CvssData e2)); discriminate.
Qed.

End ExtractorVersions.

Lemma extractMetrics_V30_as_V31_witness :
  @extractMetrics refScoring (Some (onlyV30 Fixtures.metricV30))
  = @extractMetrics refScoring (Some (onlyV31 (v30_as_v31 Fixtures.metricV30))).
Proof.
  exact (@extractMetrics_V30_as_V31 refScoring (onlyV30 Fixtures.metricV30)
           Fixtures.metricV30 [] eq_refl eq_refl).
Defined.

Lemma extractMetrics_version_ranges_witness :
  complexity (@extractMetrics refScoring (Some Fixtures.metricsV31))
  <> enums.ComplexityTypeMedium
  /\ access (@extractMetrics refScoring (Some Fixtures.metricsV2Only))
     <> enums.AccesTypePhysical.
Proof.
  split.
  - apply (proj1 (@extractMetrics_version_ranges refScoring Fixtures.metricsV31)).
    left. discriminate.
  - apply (proj2 (@extractMetrics_version_ranges refScoring Fixtures.metricsV2Only));
      reflexivity.
Defined.

(** ** The orchestrator, when it succeeds *)

Section EnrichOutcome.
Context {clock : Clock} {scoring : Scoring}.

(** X11.  [enrichVulnerabilityWithNvdData] returns no error exactly when
    the target is not nil and both timestamps parse: nothing else in the
    source record can make it fail.  The published timestamp is examined
    first, so when both are malformed the error is the one about the
    publication time. *)
Theorem enrich_succeeds_iff (vuln : option tools.Vulnerability.t)
        (nvdVuln : dto.Vulnerability.t) :
  let cve := dto.Vulnerability.Cve nvdVuln in
  (snd (enrichVulnerabilityWithNvdData vuln nvdVuln) = None
   <-> vuln <> None
       /\ (exists t, parseNvdDateTime (dto.CveDetail.Published cve) = Ok t)
       /\ (exists t, parseNvdDateTime (dto.CveDetail.LastModified cve) = Ok t))
  /\ (forall cause,
        vuln <> None ->
        parseNvdDateTime (dto.CveDetail.Published cve) = Fail cause ->
        snd (enrichVulnerabilityWithNvdData vuln nvdVuln)
        = Some (ErrorfW "failed to parse publishedTime: %w" [] cause)).
Proof.
  cbv zeta. unfold enrichVulnerabilityWithNvdData. split.
  - destruct vuln as [v|]; cbv zeta.
    + destruct (parseNvdDateTime (dto.CveDetail.Published (dto.Vulnerability.Cve nvdVuln)))
        as [p|c].
      * destruct (parseNvdDateTime
                    (dto.CveDetail.LastModified (dto.Vulnerability.Cve nvdVuln))) as [u|c].
        -- cbn [snd]. split; [|reflexivity]. intros _.
           split; [discriminate|]. split; eexists; reflexivity.
        -- cbn [snd]. split; [discriminate|]. intros (_ & _ & t & Ht). discriminate.
      * cbn [snd]. split; [discriminate|]. intros (_ & (t & Ht) & _). discriminate.
    + cbn [snd]. split; [discriminate|]. intros (H & _). congruence.
  - intros cause Hvuln Hpub. destruct vuln as [v|]; [|congruence].
    cbv zeta. rewrite Hpub. reflexivity.
Qed.

(** X12.  After a successful call the target is consistent with the source
    and with itself: the early fields hold the source's values, the two
    times are the parsed timestamps, the likelihood is the table's value
    for the access and complexity just extracted, the risk score is
    computed from that likelihood and the integrity and availability
    impact just extracted, and the vendor comments are the parsed ones. *)
Theorem enrich_success_fields (v v' : tools.Vulnerability.t)
        (nvdVuln : dto.Vulnerability.t) :
  enrichVulnerabilityWithNvdData (Some v) nvdVuln = (Some v', None) ->
  let cve := dto.Vulnerability.Cve nvdVuln in
  overwritten nvdVuln v'
  /\ parseNvdDateTime (dto.CveDetail.Published cve) = Ok (tools.Vulnerability.Published v')
  /\ parseNvdDateTime (dto.CveDetail.LastModified cve)
     = Ok (tools.Vulnerability.LastUpdated v')
  /\ tools.Vulnerability.Likelihood v' = calculateLikelihoodSimple v'
  /\ tools.Vulnerability.RiskScore v'
     = CalculateRiskScore (tools.Vulnerability.Likelihood v')
                          (integrityImpact (extractMetrics (dto.CveDetail.Metrics cve)))
                          (availabilityImpact (extractMetrics (dto.CveDetail.Metrics cve)))
  /\ tools.Vulnerability.VendorComments v'
     = parseVendorComments (dto.CveDetail.VendorComments cve).
Proof.
  cbv zeta. unfold enrichVulnerabilityWithNvdData. cbv zeta.
  destruct (parseNvdDateTime (dto.CveDetail.Published (dto.Vulnerability.Cve nvdVuln)))
    as [p|c]; [|discriminate].
  destruct (parseNvdDateTime (dto.CveDetail.LastModified (dto.Vulnerability.Cve nvdVuln)))
    as [u|c]; [|discriminate].
  flatten_assignments. intros [= <-].
  split; [repeat split|].
  repeat split.
Qed.

(** X14.  A successful call assigns every field of the canonical record,
    so its result depends on the source alone: any other target would have
    been turned into the same record. *)
Theorem enrich_success_forgets_target (v v' w : tools.Vulnerability.t)
        (nvdVuln : dto.Vulnerability.t) :
  enrichVulnerabilityWithNvdData (Some v) nvdVuln = (Some v', None) ->
  enrichVulnerabilityWithNvdData (Some w) nvdVuln = (Some v', None).
Proof.
  unfold enrichVulnerabilityWithNvdData. cbv zeta.
  destruct (parseNvdDateTime (dto.CveDetail.Published (dto.Vulnerability.Cve nvdVuln)))
    as [p|c]; [|discriminate].
  destruct (parseNvdDateTime (dto.CveDetail.LastModified (dto.Vulnerability.Cve nvdVuln)))
    as [u|c]; [|discriminate].
  flatten_assignments. intros [= <-]. reflexivity.
Qed.

(** X13.  A source record without a metrics payload resets the target:
    after a successful call every CVSS-derived field has its Unknown / 0.0
    default, whatever the target held before, and the likelihood is
    Unknown. *)
Theorem enrich_without_metrics_resets (v v' : tools.Vulnerability.t)
        (nvdVuln : dto.Vulnerability.t) :
  dto.CveDetail.Metrics (dto.Vulnerability.Cve nvdVuln) = None ->
  enrichVulnerabilityWithNvdData (Some v) nvdVuln = (Some v', None) ->
  tools.Vulnerability.BaseCVSSScore v' = 0%float
  /\ tools.Vulnerability.BaseSeverity v' = enums.SeverityTypeUnknown
  /\ tools.Vulnerability.ImpactScore v' = 0%float
  /\ tools.Vulnerability.Access v' = enums.AccessTypeUnknown
  /\ tools.Vulnerability.Complexity v' = enums.ComplexityTypeUnknown
  /\ tools.Vulnerability.PrivilegesRequired v' = enums.PrivilegesRequiredUnknown
  /\ tools.Vulnerability.IntegrityImpact v' = enums.ImpactTypeUnknown
  /\ tools.Vulnerability.AvailabilityImpact v' = enums.ImpactTypeUnknown
  /\ tools.Vulnerability.Exploit v' = exploitability extractDefaults
  /\ tools.Vulnerability.Likelihood v' = enums.LikelyhoodTypeUnknown
  /\ tools.Vulnerability.RiskScore v'
     = CalculateRiskScore enums.LikelyhoodTypeUnknown
                          enums.ImpactTypeUnknown enums.ImpactTypeUnknown.
Proof.
  intros Hmetrics. unfold enrichVulnerabilityWithNvdData. cbv zeta.
  rewrite Hmetrics.
  destruct (parseNvdDateTime (dto.CveDetail.Published (dto.Vulnerability.Cve nvdVuln)))
    as [p|c]; [|discriminate].
  destruct (parseNvdDateTime (dto.CveDetail.LastModified (dto.Vulnerability.Cve nvdVuln)))
    as [u|c]; [|discriminate].
  flatten_assignments. intros [= <-]. repeat split.
Qed.

End EnrichOutcome.

Lemma pair_of_components {A B : Type} (p : A * B) (a : A) (b : B) :
  fst p = a -> snd p = b -> p = (a, b).
Proof. intros <- <-. apply surjective_pairing. Qed.

(** The run of the orchestrator on the 3.1 fixture succeeds. *)
Lemma enrich_fixture_succeeds (target : tools.Vulnerability.t) (source : dto.Vulnerability.t) :
  (match fst (@enrichVulnerabilityWithNvdData refClock refScoring (Some target) source) with
   | Some _ => true
   | None => false
   end) = true ->
  snd (@enrichVulnerabilityWithNvdData refClock refScoring (Some target) source) = None ->
  exists v', @enrichVulnerabilityWithNvdData refClock refScoring (Some target) source
             = (Some v', None).
Proof.
  intros Hfst Hsnd.
  destruct (fst (@enrichVulnerabilityWithNvdData refClock refScoring (Some target) source))
    as [v'|] eqn:Hv; [|discriminate].
  exists v'. apply pair_of_components; assumption.
Qed.

Lemma enrich_succeeds_iff_witness :
  snd (@enrichVulnerabilityWithNvdData refClock refScoring
         (Some Fixtures.emptyVulnerability) Fixtures.mockNvdVulnerabilityWithV31) = None
  /\ snd (@enrichVulnerabilityWithNvdData refClock refScoring
            (Some Fixtures.emptyVulnerability) Fixtures.mockNvdVulnerabilityBadDate)
     = Some (ErrorfW "failed to parse publishedTime: %w" []
               (ErrorfW "failed to parse date using custom layout: %w" []
                  (External
                     (RefClock.parseError "2006-01-02T15:04:05.000" "2024-11-21T02:09:48"
                        ".000" EmptyString EmptyString)))).
Proof.
  split.
  - pose proof (@enrich_succeeds_iff refClock refScoring
                  (Some Fixtures.emptyVulnerability) Fixtures.mockNvdVulnerabilityWithV31)
      as [Hiff _].
    apply Hiff. split; [discriminate|].
    split; eexists; vm_compute; reflexivity.
  - pose proof (@enrich_succeeds_iff refClock refScoring
                  (Some Fixtures.emptyVulnerability) Fixtures.mockNvdVulnerabilityBadDate)
      as [_ Hpub].
    apply Hpub; [discriminate|]. vm_compute. reflexivity.
Defined.

Lemma enrich_success_fields_witness :
  exists v',
    @enrichVulnerabilityWithNvdData refClock refScoring
      (Some Fixtures.emptyVulnerability) Fixtures.mockNvdVulnerabilityWithV31
    = (Some v', None)
    /\ tools.Vulnerability.Likelihood v' = @calculateLikelihoodSimple refClock refScoring v'.
Proof.
  destruct (enrich_fixture_succeeds Fixtures.emptyVulnerability
              Fixtures.mockNvdVulnerabilityWithV31) as [v' Hrun];
    [vm_compute; reflexivity|vm_compute; reflexivity|].
  exists v'. split; [exact Hrun|].
  pose proof (@enrich_success_fields refClock refScoring Fixtures.emptyVulnerability v'
                Fixtures.mockNvdVulnerabilityWithV31 Hrun) as (_ & _ & _ & H & _).
  exact H.
Defined.

Lemma enrich_success_forgets_target_witness :
  @enrichVulnerabilityWithNvdData refClock refScoring
    (Some Fixtures.scoredVulnerability) Fixtures.mockNvdVulnerabilityWithV31
  = @enrichVulnerabilityWithNvdData refClock refScoring
      (Some Fixtures.emptyVulnerability) Fixtures.mockNvdVulnerabilityWithV31.
Proof.
  destruct (enrich_fixture_succeeds Fixtures.emptyVulnerability
              Fixtures.mockNvdVulnerabilityWithV31) as [v' Hrun];
    [vm_compute; reflexivity|vm_compute; reflexivity|].
  rewrite Hrun.
  exact (@enrich_success_forgets_target refClock refScoring Fixtures.emptyVulnerability v'
           Fixtures.scoredVulnerability Fixtures.mockNvdVulnerabilityWithV31 Hrun).
Defined.

Lemma enrich_without_metrics_resets_witness :
  exists v',
    @enrichVulnerabilityWithNvdData refClock refScoring
      (Some Fixtures.scoredVulnerability) Fixtures.mockNvdVulnerabilityNoMetrics
    = (Some v', None)
    /\ tools.Vulnerability.BaseSeverity v' = enums.SeverityTypeUnknown
    /\ tools.Vulnerability.Access v' = enums.AccessTypeUnknown
    /\ tools.Vulnerability.Likelihood v' = enums.LikelyhoodTypeUnknown.
Proof.
  destruct (enrich_fixture_succeeds Fixtures.scoredVulnerability
              Fixtures.mockNvdVulnerabilityNoMetrics) as [v' Hrun];
    [vm_compute; reflexivity|vm_compute; reflexivity|].
  exists v'. split; [exact Hrun|].
  pose proof (@enrich_without_metrics_resets refClock refScoring
                Fixtures.scoredVulnerability v' Fixtures.mockNvdVulnerabilityNoMetrics
                eq_refl Hrun)
    as (_ & Hsev & _ & Hacc & _ & _ & _ & _ & _ & Hlik & _).
  split; [exact Hsev|]. split; [exact Hacc|exact Hlik].
Defined.

(** ** Backoff delay *)

(** X15.  [calculateRetryDelay] never exceeds 15 seconds, for any attempt
    number, also where the shift or the product wraps around; and for the
    attempts the loop makes, 0 to [maxRetries], it is at least the initial
    delay of 5 seconds and does not decrease from one attempt to the next. *)
Theorem calculateRetryDelay_bounds (attempt : Z) :
  (calculateRetryDelay attempt <= 15 * time_Second)%Z
  /\ ((0 <= attempt <= maxRetries)%Z ->
      (initialRetryDelay <= calculateRetryDelay attempt)%Z
      /\ (calculateRetryDelay attempt <= calculateRetryDelay (attempt + 1))%Z).
Proof.
  split.
  - unfold calculateRetryDelay. cbv zeta.
    match goal with
    | |- context [Z.ltb ?a ?b] => destruct (Z.ltb_spec a b) as [Hcap|Hcap]
    end; [reflexivity|exact Hcap].
  - unfold maxRetries. intros Hrange.
    assert (attempt = 0 \/ attempt = 1 \/ attempt = 2 \/ attempt = 3)%Z
      as [ -> | [ -> | [ -> | -> ] ] ] by lia;
      split; vm_compute; discriminate.
Qed.

(** At attempt 54 the product wraps to the least 64-bit integer and the
    jitter carries the sum back above the cap. *)
Example calculateRetryDelay_wrapped :
  map calculateRetryDelay [53; 54; 55; 63; 64; -1]%Z
  = [15 * time_Second; 15 * time_Second; 0; 0; 0; 0]%Z.
Proof. vm_compute. reflexivity. Qed.

Lemma calculateRetryDelay_bounds_witness :
  (initialRetryDelay <= calculateRetryDelay 2)%Z
  /\ (calculateRetryDelay 2 <= calculateRetryDelay 3)%Z.
Proof.
  apply (proj2 (calculateRetryDelay_bounds 2)). unfold maxRetries. lia.
Defined.
